(** * The e-mail relay service: a shallow embedding of its three variants

    The repository holds three variants of one small Express application that
    relays a JSON request to a transactional e-mail provider:

    - [IndexJs]  : src/index.js            (Brevo SDK, hand-written CORS middleware)
    - [Part000]  : src/unnamed/part_000    (Brevo SDK, the cors package, logging)
    - [Part001]  : src/unnamed/part_001    (SendGrid SDK, hand-written CORS middleware)

    JavaScript data is embedded as the untyped [JS.value]; the module-level
    constants of each program are a record computed once from the process
    environment; a middleware is a function from the request and the response
    under construction to a [step]; the asynchronous provider call is an
    oracle whose invocations are recorded in the outcome of a request.
    Console output (console.log / console.error) is not part of the model,
    except where writing it can throw: the template literal of the log line
    the handlers write after a successful send. *)

From Stdlib Require Import String Ascii List ZArith Bool Arith Lia DecimalString.
Import ListNotations.
Local Open Scope string_scope.
Set Warnings "-register-all".

(* ===================================================================== *)
(** * JavaScript values and the built-ins the programs use *)
(* ===================================================================== *)

Module JS.

(** A JavaScript value as the programs see it: what JSON.parse produces,
    plus undefined.  Numbers are the integer-valued ones; the programs only
    test numbers for truthiness and pass them on.  An object is its list of
    own properties in insertion order, each key bound once. *)
Inductive value : Type :=
| VUndefined
| VNull
| VBool (b : bool)
| VNum (n : Z)
| VStr (s : string)
| VArr (elems : list value)
| VObj (props : list (string * value)).

(** ToBoolean: undefined, null, false, 0 and the empty string are falsy;
    every array and every object is truthy, the empty ones included. *)
Definition truthy (v : value) : bool :=
  match v with
  | VUndefined | VNull => false
  | VBool b => b
  | VNum n => negb (n =? 0)%Z
  | VStr s => negb (s =? "")
  | VArr _ | VObj _ => true
  end.

(** [a || b] *)
Definition or_else (a b : value) : value := if truthy a then a else b.

Fixpoint assoc {A : Type} (k : string) (l : list (string * A)) : option A :=
  match l with
  | [] => None
  | (k', v) :: t => if k' =? k then Some v else assoc k t
  end.

(** Property read [o.k] for the property names the programs use (none of
    them lives on a prototype): undefined unless [o] is an object that has
    the property.  The programs read properties of req.body, which body
    parsing makes an object, and of the error of a rejected provider call,
    an object as well; a read from undefined or null, which would throw,
    does not occur. *)
Definition prop (o : value) (k : string) : value :=
  match o with
  | VObj kvs => match assoc k kvs with Some v => v | None => VUndefined end
  | _ => VUndefined
  end.

(** Array.isArray *)
Definition isArray (v : value) : bool :=
  match v with VArr _ => true | _ => false end.

(** The elements of an array (no elements for anything else). *)
Definition elements (v : value) : list value :=
  match v with VArr l => l | _ => [] end.

(** ** Strings *)

Definition dquote : ascii := "034"%char.
Definition comma : ascii := ","%char.

Fixpoint join (sep : string) (l : list string) : string :=
  match l with
  | [] => ""
  | [x] => x
  | x :: t => x ++ sep ++ join sep t
  end.

(** String.prototype.split with a one-character separator. *)
Fixpoint split (sep : ascii) (s : string) : list string :=
  match s with
  | "" => [""]
  | String c t =>
      if Ascii.eqb c sep then "" :: split sep t
      else match split sep t with
           | h :: r => String c h :: r
           | [] => [String c ""]
           end
  end.

(** Strings are the UTF-8 bytes of the JavaScript string.  The white space
    String.prototype.trim strips is, within ASCII, tab, line feed, vertical
    tab, form feed, carriage return and space. *)
Definition is_whitespace (c : ascii) : bool :=
  let n := nat_of_ascii c in
  ((9 <=? n)%nat && (n <=? 13)%nat) || (n =? 32)%nat.

(** The white space of two bytes: U+00A0 (C2 A0). *)
Definition is_whitespace2 (a b : ascii) : bool :=
  (nat_of_ascii a =? 194)%nat && (nat_of_ascii b =? 160)%nat.

(** The white space of three bytes: U+1680 (E1 9A 80), U+2000 to U+200A
    (E2 80 80 to E2 80 8A), U+2028 and U+2029 (E2 80 A8, E2 80 A9), U+202F
    (E2 80 AF), U+205F (E2 81 9F), U+3000 (E3 80 80) and U+FEFF (EF BB BF). *)
Definition is_whitespace3 (a b c : ascii) : bool :=
  let x := nat_of_ascii a in
  let y := nat_of_ascii b in
  let z := nat_of_ascii c in
  ((x =? 225) && (y =? 154) && (z =? 128))%nat
  || ((x =? 226) && (y =? 128)
      && (((128 <=? z) && (z <=? 138)) || (z =? 168) || (z =? 169) || (z =? 175)))%nat
  || ((x =? 226) && (y =? 129) && (z =? 159))%nat
  || ((x =? 227) && (y =? 128) && (z =? 128))%nat
  || ((x =? 239) && (y =? 187) && (z =? 191))%nat.

(** String.prototype.trimStart: white-space code points are dropped from
    the front until another one stands there. *)
Fixpoint trimStart (s : string) : string :=
  match s with
  | "" => ""
  | String a t =>
      if is_whitespace a then trimStart t
      else
        match t with
        | "" => s
        | String b t2 =>
            if is_whitespace2 a b then trimStart t2
            else
              match t2 with
              | "" => s
              | String c t3 => if is_whitespace3 a b c then trimStart t3 else s
              end
        end
  end.

(** String.prototype.trimEnd: what stands before the white space the string
    ends with (a suffix is white space when trimStart leaves nothing of
    it). *)
Fixpoint trimEnd (s : string) : string :=
  match s with
  | "" => ""
  | String a t => if trimStart s =? "" then "" else String a (trimEnd t)
  end.

(** String.prototype.trim *)
Definition trim (s : string) : string := trimEnd (trimStart s).

(** String.prototype.endsWith *)
Definition endsWith (s suffix : string) : bool :=
  (String.length suffix <=? String.length s)%nat &&
  (substring (String.length s - String.length suffix) (String.length suffix) s =? suffix).

(** [s.slice(0, -1)] *)
Definition slice_0_m1 (s : string) : string :=
  substring 0 (String.length s - 1) s.

(** ** Arrays of strings *)

(** Array.prototype.includes on an array of strings. *)
Definition includes (l : list string) (x : string) : bool :=
  existsb (String.eqb x) l.

Fixpoint indexOf_from (l : list string) (x : string) (i : nat) : Z :=
  match l with
  | [] => (-1)%Z
  | y :: t => if y =? x then Z.of_nat i else indexOf_from t x (S i)
  end.

(** Array.prototype.indexOf: the first index holding [x], or -1. *)
Definition indexOf (l : list string) (x : string) : Z := indexOf_from l x 0.

(** Array.prototype.filter with the three-argument callback
    [(value, index, self) => ...]; [i] is the index of the head of [l]. *)
Fixpoint filter_from (f : string -> nat -> bool) (l : list string) (i : nat)
  : list string :=
  match l with
  | [] => []
  | x :: t => if f x i then x :: filter_from f t (S i) else filter_from f t (S i)
  end.

Definition filter_indexed (f : string -> nat -> list string -> bool)
    (self : list string) : list string :=
  filter_from (fun v i => f v i self) self 0.

(** ** Conversions to text *)

Definition string_of_Z (n : Z) : string := NilZero.string_of_int (Z.to_int n).

Definition hex_digit (n : nat) : ascii :=
  match get n "0123456789abcdef" with Some c => c | None => "0"%char end.

(** QuoteJSONString on one character. *)
Definition json_escape_char (c : ascii) : string :=
  let n := nat_of_ascii c in
  if (n =? 34)%nat then String "\" (String dquote "")
  else if (n =? 92)%nat then "\\"
  else if (n =? 8)%nat then "\b"
  else if (n =? 9)%nat then "\t"
  else if (n =? 10)%nat then "\n"
  else if (n =? 12)%nat then "\f"
  else if (n =? 13)%nat then "\r"
  else if (n <? 32)%nat then
    "\u00" ++ String (hex_digit (n / 16)) (String (hex_digit (n mod 16)) "")
  else String c "".

Fixpoint json_escape (s : string) : string :=
  match s with
  | "" => ""
  | String c t => json_escape_char c ++ json_escape t
  end.

Definition json_quote (s : string) : string :=
  String dquote (json_escape s ++ String dquote "").

(** JSON.stringify with one argument.  [None] is the result undefined
    (for undefined itself); inside an array undefined prints as null, and
    a property holding undefined is left out. *)
Fixpoint JSON_stringify (v : value) : option string :=
  match v with
  | VUndefined => None
  | VNull => Some "null"
  | VBool true => Some "true"
  | VBool false => Some "false"
  | VNum n => Some (string_of_Z n)
  | VStr s => Some (json_quote s)
  | VArr l =>
      Some ("[" ++ join ","
              (map (fun e => match JSON_stringify e with
                             | Some s => s
                             | None => "null"
                             end) l) ++ "]")
  | VObj kvs =>
      Some ("{" ++ join ","
              (flat_map (fun '(k, e) => match JSON_stringify e with
                                        | Some s => [json_quote k ++ ":" ++ s]
                                        | None => []
                                        end) kvs) ++ "}")
  end.

(** ToString of a value, as a template literal [`${v}`] applies it. *)
Fixpoint ToString (v : value) : string :=
  match v with
  | VUndefined => "undefined"
  | VNull => "null"
  | VBool true => "true"
  | VBool false => "false"
  | VNum n => string_of_Z n
  | VStr s => s
  | VArr l =>
      join "," (map (fun e => match e with
                              | VUndefined | VNull => ""
                              | _ => ToString e
                              end) l)
  | VObj _ => "[object Object]"
  end.

(** [`${JSON.stringify(v)}`] *)
Definition stringified (v : value) : string :=
  match JSON_stringify v with Some s => s | None => "undefined" end.

(** ToString of a value does not throw.  An object parsed from JSON that has
    an own property named toString has nothing callable to convert it (the
    property holds JSON data, and valueOf gives the object back): ToString
    throws a TypeError.  An array is joined, so it converts when its
    elements do. *)
Fixpoint printable (v : value) : bool :=
  match v with
  | VArr l => forallb printable l
  | VObj kvs => match assoc "toString" kvs with Some _ => false | None => true end
  | _ => true
  end.

(** One [${v}] of a template literal: the text, or [None] when the
    conversion throws. *)
Definition template (v : value) : option string :=
  if printable v then Some (ToString v) else None.

(** The TypeError a failed conversion throws, as the catch blocks read it
    (its message; it has no response). *)
Definition conversion_TypeError : value :=
  VObj [("message", VStr "Cannot convert object to primitive value")].

(** ASCII lower case, the case folding of a case-insensitive route. *)
Definition lower_ascii (c : ascii) : ascii :=
  let n := nat_of_ascii c in
  if ((65 <=? n) && (n <=? 90))%nat then ascii_of_nat (n + 32) else c.

Fixpoint toLowerCase (s : string) : string :=
  match s with
  | "" => ""
  | String c t => String (lower_ascii c) (toLowerCase t)
  end.


Definition starts_with_whitespace (s : string) : bool :=
  match s with
  | "" => false
  | String c _ => is_whitespace c
  end.

Fixpoint ends_with_whitespace (s : string) : bool :=
  match s with
  | "" => false
  | String c "" => is_whitespace c
  | String _ t => ends_with_whitespace t
  end.

End JS.


(* ===================================================================== *)
(** * The HTTP framework as the programs use it *)
(* ===================================================================== *)

Module Express.
Import JS.

(** An incoming request after body parsing.  [headers] are keyed by their
    lower-case names, as Node presents them; a header is a string or absent.
    [body] is what bodyParser.json() leaves in req.body: the parsed JSON
    object or array, and the empty object when there was nothing to parse. *)
Record request : Type := {
  method : string;
  url : string;
  headers : list (string * string);
  body : value
}.

(** [req.headers[name]] *)
Definition header (req : request) (name : string) : option string :=
  assoc name (headers req).

(** [!h] for a header value: absent, or the empty string. *)
Definition absent (h : option string) : bool :=
  match h with
  | None => true
  | Some s => s =? ""
  end.

(** [h !== s] for a header value [h] and a string [s]. *)
Definition differs (h : option string) (s : string) : bool :=
  match h with
  | None => true
  | Some k => negb (k =? s)
  end.

Inductive payload : Type :=
| NoBody
| Text (s : string)
| Json (v : value).

(** The response under construction and, once ended, as the program sent
    it.  [resHeaders] holds the headers set by the program and by the cors
    package; those the framework adds on its own (Content-Type and the
    like) are left out, and so is what the framework makes of a finished
    response on its own account: no body on the wire for a HEAD request,
    304 for a conditional GET whose validators match. *)
Record response : Type := {
  statusCode : Z;
  resHeaders : list (string * string);
  resBody : payload
}.

Definition fresh : response :=
  {| statusCode := 200; resHeaders := []; resBody := NoBody |}.

Fixpoint set_assoc (k v : string) (l : list (string * string))
  : list (string * string) :=
  match l with
  | [] => [(k, v)]
  | (k', v') :: t => if k' =? k then (k, v) :: t else (k', v') :: set_assoc k v t
  end.

(** [res.header(k, v)] / [res.setHeader(k, v)] *)
Definition setHeader (res : response) (k v : string) : response :=
  {| statusCode := statusCode res;
     resHeaders := set_assoc k v (resHeaders res);
     resBody := resBody res |}.

(** [res.getHeader(k)] *)
Definition getHeader (res : response) (k : string) : option string :=
  assoc k (resHeaders res).

(** [res.status(code).json(v)] *)
Definition status_json (res : response) (code : Z) (v : value) : response :=
  {| statusCode := code; resHeaders := resHeaders res; resBody := Json v |}.

(** [res.json(v)]: the status stays as it is. *)
Definition json (res : response) (v : value) : response :=
  status_json res (statusCode res) v.

(** [res.sendStatus(200)]: the status with its reason phrase as the body. *)
Definition sendStatus_200 (res : response) : response :=
  {| statusCode := 200; resHeaders := resHeaders res; resBody := Text "OK" |}.

(** What a middleware does with a request: call next(), call next(err), or
    end the response.  After next(err) the framework skips every remaining
    middleware and route up to the next error handler. *)
Inductive step : Type :=
| Next (res : response)
| NextErr (err : value) (res : response)
| End (res : response).

(** The e-mail provider's send operation (sendTransacEmail, sgMail.send): the
    awaited promise resolves with data or rejects with an error. *)
Inductive settled : Type :=
| Resolved (data : value)
| Rejected (error : value).

Definition provider : Type := value -> settled.

(** What handling one request amounts to: the response sent, and the
    requests handed to the provider, in order. *)
Record outcome : Type := {
  sent : response;
  provider_calls : list value
}.

Definition reply (res : response) : outcome :=
  {| sent := res; provider_calls := [] |}.

(** The path of a request target in origin form: what stands before the
    query string (or a fragment). *)
Fixpoint pathname (target : string) : string :=
  match target with
  | "" => ""
  | String c t =>
      if (Ascii.eqb c "?" || Ascii.eqb c "#")%char then "" else String c (pathname t)
  end.

(** The response when no route matches and the program has no catch-all:
    the framework's final handler, whose page names the method and the
    path. *)
Definition finalhandler_404 (req : request) (res : response) : response :=
  {| statusCode := 404; resHeaders := resHeaders res;
     resBody := Text ("Cannot " ++ method req ++ " " ++ pathname (url req)) |}.

(** The framework's final handler for an error no middleware took. *)
Definition finalhandler_500 (res : response) : response :=
  {| statusCode := 500; resHeaders := resHeaders res;
     resBody := Text "Internal Server Error" |}.

(** A route path (given in lower case, without pattern characters) matches a
    request target as the framework's routes do by default: on the path
    alone, without regard to case, with or without one trailing slash. *)
Definition path_matches (route target : string) : bool :=
  (toLowerCase (pathname target) =? route)
  || (toLowerCase (pathname target) =? route ++ "/").

(** A route registered for a method takes the requests of that method; a
    GET route also takes HEAD requests. *)
Definition method_matches (route_method m : string) : bool :=
  (m =? route_method) || ((route_method =? "GET") && (m =? "HEAD")).

(** What bodyParser.json() made of the body of an incoming request: it set
    req.body (the parsed object or array, the empty object when there was
    nothing for it to parse), or it called next(err) with an error that
    carries the status to answer (400 for JSON it cannot parse, 413 for a
    body over the limit, 415 for a charset it does not know). *)
Inductive parsed : Type :=
| BodyParsed (b : value)
| BodyRejected (err : value).

(** A request as it comes in, before body parsing. *)
Record incoming : Type := {
  in_method : string;
  in_url : string;
  in_headers : list (string * string);
  in_body : parsed
}.

(** The request the later middlewares see once the body is parsed. *)
Definition with_body (i : incoming) (b : value) : request :=
  {| method := in_method i; url := in_url i; headers := in_headers i; body := b |}.

(** The incoming request that body parsing turns into [req]. *)
Definition accepted (req : request) : incoming :=
  {| in_method := method req; in_url := url req; in_headers := headers req;
     in_body := BodyParsed (body req) |}.

(** The status the framework's final handler answers an error with:
    err.status, else err.statusCode, when it is an error status, else 500. *)
Definition error_status (err : value) : Z :=
  let usable (v : value) :=
    match v with
    | VNum n => ((400 <=? n) && (n <? 600))%Z
    | _ => false
    end in
  match prop err "status", prop err "statusCode" with
  | VNum n, other =>
      if usable (VNum n) then n
      else match other with
           | VNum m => if usable (VNum m) then m else 500%Z
           | _ => 500%Z
           end
  | _, VNum m => if usable (VNum m) then m else 500%Z
  | _, _ => 500%Z
  end.

(** process.env, as far as the programs read it when they start. *)
Record process_env : Type := {
  env_ALLOWED_ORIGINS : option string;
  env_API_SECRET_KEY : option string
}.

(** [process.env.X || fallback] *)
Definition env_or (x : option string) (fallback : string) : string :=
  match x with
  | None => fallback
  | Some s => if s =? "" then fallback else s
  end.

(** The module-level constants a program computes when it starts. *)
Record constants : Type := {
  ALLOWED_ORIGINS : list string;
  API_SECRET_KEY : string
}.

(** What a request handler reads from its surroundings: process.env.NODE_ENV,
    the clock (new Date().toISOString()), process.uptime(), and the text of
    the stack trace an Error created now would carry.  The clock is taken
    to show one time for the whole handling of a request. *)
Record world : Type := {
  NODE_ENV : option string;
  now : string;
  uptime : value;
  trace : string
}.

(** [process.env.NODE_ENV === 'development'] *)
Definition development (w : world) : bool :=
  negb (differs (NODE_ENV w) "development").

(** The reason phrases of the statuses bodyParser.json() raises. *)
Definition reason_phrase (status : Z) : string :=
  if (status =? 400)%Z then "Bad Request"
  else if (status =? 413)%Z then "Payload Too Large"
  else if (status =? 415)%Z then "Unsupported Media Type"
  else "Internal Server Error".

(** The framework's final handler for an error that carries a status: an
    error page with that status, which shows the reason phrase in production
    and the error's stack otherwise (the framework's environment is
    [process.env.NODE_ENV || 'development']). *)
Definition finalhandler_error (w : world) (err : value) (res : response) : response :=
  {| statusCode := error_status err; resHeaders := resHeaders res;
     resBody := Text (if differs (NODE_ENV w) "production"
                      then ToString (prop err "stack")
                      else reason_phrase (error_status err)) |}.

(** [new Error(message)] *)
Definition new_Error (w : world) (message : string) : value :=
  VObj [("message", VStr message); ("stack", VStr ("Error: " ++ message ++ trace w))].

(** The TypeError a failed string conversion throws. *)
Definition new_TypeError (w : world) (message : string) : value :=
  VObj [("message", VStr message);
        ("stack", VStr ("TypeError: " ++ message ++ trace w))].

Definition ACAO : string := "Access-Control-Allow-Origin".
Definition ACAM : string := "Access-Control-Allow-Methods".
Definition ACAH : string := "Access-Control-Allow-Headers".
Definition ACAC : string := "Access-Control-Allow-Credentials".

End Express.


(* ===================================================================== *)
(** * The cors package, for the option forms the programs pass to it *)
(* ===================================================================== *)

Module CorsPkg.
Import JS Express.

(** The cors package is a dependency of part_000, not a file of the
    repository; this module follows its published source (version 2.8):
    the option record, the origin callback protocol, and the headers it
    puts on a pre-flight and on any other request.  The maxAge and
    exposedHeaders options, which the programs never set, add no header and
    are left out. *)

(** The [origin] option: a static value, or a function that is given
    req.headers.origin and calls back with [(err, origin)]. *)
Inductive origin_option : Type :=
| OriginValue (v : value)
| OriginFunction (f : option string -> value * value).

Record options : Type := {
  origin : origin_option;
  credentials : bool;
  methods : list string;
  allowedHeaders : option (list string);
  preflightContinue : bool;
  optionsSuccessStatus : Z
}.

(** The package's defaults, used by a bare [cors()] (the default methods are
    given there as the string these join to). *)
Definition defaults : options :=
  {| origin := OriginValue (VStr "*");
     credentials := false;
     methods := ["GET"; "HEAD"; "PUT"; "PATCH"; "POST"; "DELETE"];
     allowedHeaders := None;
     preflightContinue := false;
     optionsSuccessStatus := 204 |}.

(** A header the package is about to apply; [None] stands for a value that
    is false, null or undefined. *)
Definition pending : Type := (string * option string)%type.

(** vary(res, field): add [field] to the Vary header.  The programs never add
    the same field twice. *)
Definition vary (res : response) (field : string) : response :=
  match getHeader res "Vary" with
  | None => setHeader res "Vary" field
  | Some v => setHeader res "Vary" (v ++ ", " ++ field)
  end.

(** applyHeaders: a header whose value is falsy is skipped. *)
Fixpoint applyHeaders (hs : list pending) (res : response) : response :=
  match hs with
  | [] => res
  | (k, v) :: t =>
      if absent v then applyHeaders t res
      else
        let s := match v with Some s => s | None => "" end in
        if k =? "Vary" then applyHeaders t (vary res s)
        else applyHeaders t (setHeader res k s)
  end.

(** isOriginAllowed (the RegExp form of the option is not modelled). *)
Fixpoint isOriginAllowed (requestOrigin : option string) (allowed : value) : bool :=
  match allowed with
  | VArr l => existsb (isOriginAllowed requestOrigin) l
  | VStr s => negb (differs requestOrigin s)
  | _ => truthy allowed
  end.

(** configureOrigin, with the origin the options or the callback settled on:
    the wildcard, a fixed origin, or the request's own origin reflected when
    it is allowed. *)
Definition configureOrigin (allowed : value) (req : request) : list pending :=
  if negb (truthy allowed) then [(ACAO, Some "*")]
  else
    match allowed with
    | VStr s =>
        if s =? "*" then [(ACAO, Some "*")]
        else [(ACAO, Some s); ("Vary", Some "Origin")]
    | _ =>
        [(ACAO, if isOriginAllowed (header req "origin") allowed
                then header req "origin" else None);
         ("Vary", Some "Origin")]
    end.

Definition configureCredentials (o : options) : list pending :=
  if credentials o then [(ACAC, Some "true")] else [].

Definition configureMethods (o : options) : list pending :=
  [(ACAM, Some (join "," (methods o)))].

Definition configureAllowedHeaders (o : options) (req : request) : list pending :=
  match allowedHeaders o with
  | None =>
      [("Vary", Some "Access-Control-Request-Headers");
       (ACAH, header req "access-control-request-headers")]
  | Some hs => [(ACAH, Some (join "," hs))]
  end.

(** cors(options, req, res, next): a pre-flight (OPTIONS) gets the full set
    of headers and is ended with the configured status unless
    [preflightContinue]; any other request gets the origin and credentials
    headers and goes on. *)
Definition cors (o : options) (allowed : value) (req : request) (res : response)
  : step :=
  if method req =? "OPTIONS" then
    let res1 := applyHeaders (configureOrigin allowed req ++ configureCredentials o
                              ++ configureMethods o ++ configureAllowedHeaders o req) res in
    if preflightContinue o then Next res1
    else End {| statusCode := optionsSuccessStatus o;
                resHeaders := resHeaders (setHeader res1 "Content-Length" "0");
                resBody := NoBody |}
  else
    Next (applyHeaders (configureOrigin allowed req ++ configureCredentials o) res).

(** The middleware [cors(options)]: ask the origin option; on an error or a
    falsy origin call [next(err)] (a null error is a plain next()), otherwise
    run [cors] with the origin settled on. *)
Definition corsMiddleware (o : options) (req : request) (res : response) : step :=
  let '(err2, allowed) :=
    match origin o with
    | OriginValue v => (VNull, v)
    | OriginFunction f => f (header req "origin")
    end in
  if truthy err2 || negb (truthy allowed) then
    (if truthy err2 then NextErr err2 res else Next res)
  else cors o allowed req res.

End CorsPkg.


(* ===================================================================== *)
(** * src/index.js *)
(* ===================================================================== *)

Module IndexJs.
Import JS Express.

(** The constants ALLOWED_ORIGINS and API_SECRET_KEY. *)
Definition load (env : process_env) : constants :=
  {| ALLOWED_ORIGINS :=
       split comma (env_or (env_ALLOWED_ORIGINS env) "https://kenyaonabudgetsafaris.co.uk");
     API_SECRET_KEY := env_or (env_API_SECRET_KEY env) "your-secret-key-here" |}.

(** The custom CORS middleware.  [ALLOWED_ORIGINS.includes(origin)] is false
    for an absent origin: the array holds strings only. *)
Definition cors_middleware (c : constants) (req : request) (res : response) : step :=
  let origin := header req "origin" in
  let res1 :=
    match origin with
    | Some o =>
        if includes (ALLOWED_ORIGINS c) o then
          setHeader
            (setHeader (setHeader res ACAO o) ACAM "GET, POST, OPTIONS")
            ACAH "Content-Type, Authorization, X-API-Key"
        else res
    | None => res
    end in
  if method req =? "OPTIONS" then End (sendStatus_200 res1) else Next res1.

Definition validateApiKey (c : constants) (req : request) (res : response) : step :=
  let apiKey := header req "x-api-key" in
  if absent apiKey || differs apiKey (API_SECRET_KEY c) then
    End (status_json res 401 (VObj [("error", VStr "Unauthorized: Invalid API key")]))
  else Next res.

(** [cc.forEach(ccEmail => ccRecipients.push({ email: ccEmail }))] under its
    guard [cc && Array.isArray(cc) && cc.length > 0]. *)
Definition ccRecipients (cc : value) : list value :=
  if truthy cc && isArray cc && (0 <? List.length (elements cc))%nat
  then map (fun ccEmail => VObj [("email", ccEmail)]) (elements cc)
  else [].

Definition sendEmailRequest (b : value) : value :=
  let to := prop b "to" in
  let subject := prop b "subject" in
  let html := prop b "html" in
  let cc := prop b "cc" in
  let from := prop b "from" in
  let name := prop b "name" in
  let sender := VObj [("email", or_else from (VStr "info@kenyaonabudgetsafaris.co.uk"));
                      ("name", or_else name (VStr "KenyaOnABudget Safaris"))] in
  let recipients := VArr [VObj [("email", to)]] in
  VObj [("sender", sender);
        ("to", recipients);
        ("cc", if (0 <? List.length (ccRecipients cc))%nat
               then VArr (ccRecipients cc) else VUndefined);
        ("subject", subject);
        ("htmlContent", html)].

(** The catch block's errorMessage. *)
Definition errorMessage (error : value) : value :=
  if truthy (prop error "response")
  then VStr ("Brevo error: " ++ stringified (prop (prop error "response") "text"))
  else prop error "message".

(** The line logged once the provider has resolved,
    [`Email sent: ${subject} to ${to} (${emailType || 'general'})`]; [None]
    when a conversion to a string throws. *)
Definition sent_log_line (b : value) : option string :=
  match template (prop b "subject"), template (prop b "to"),
        template (or_else (prop b "emailType") (VStr "general")) with
  | Some subject, Some to, Some emailType =>
      Some ("Email sent: " ++ subject ++ " to " ++ to ++ " (" ++ emailType ++ ")")
  | _, _, _ => None
  end.

(** The handler of POST /send-email.  Its try block covers the awaited send
    and the log line after it: whatever either throws goes to the catch
    block, which answers 500. *)
Definition send_email (send : provider) (req : request) (res : response) : outcome :=
  let to := prop (body req) "to" in
  let subject := prop (body req) "subject" in
  let html := prop (body req) "html" in
  if negb (truthy to) || negb (truthy subject) || negb (truthy html) then
    reply (status_json res 400
             (VObj [("success", VBool false);
                    ("error", VStr "Missing required fields (to, subject, html)")]))
  else
    let request := sendEmailRequest (body req) in
    let caught (error : value) :=
      {| sent := status_json res 500
                   (VObj [("success", VBool false);
                          ("error", errorMessage error)]);
         provider_calls := [request] |} in
    match send request with
    | Resolved data =>
        match sent_log_line (body req) with
        | Some _ =>
            {| sent := status_json res 200
                         (VObj [("success", VBool true);
                                ("message", VStr "Email sent successfully");
                                ("data", data)]);
               provider_calls := [request] |}
        | None => caught conversion_TypeError
        end
    | Rejected error => caught error
    end.

(** [app.post('/send-email', validateApiKey, async (req, res) => ...)] *)
Definition send_email_route (c : constants) (send : provider)
    (req : request) (res : response) : outcome :=
  match validateApiKey c req res with
  | Next res1 => send_email send req res1
  | NextErr _ res1 => reply (finalhandler_500 res1)
  | End res1 => reply res1
  end.

Definition health (w : world) (res : response) : response :=
  status_json res 200 (VObj [("status", VStr "up"); ("timestamp", VStr (now w))]).

(** The routes in their order, matched as the framework matches them. *)
Definition router (c : constants) (w : world) (send : provider)
    (req : request) (res : response) : outcome :=
  if method_matches "POST" (method req) && path_matches "/send-email" (url req) then
    send_email_route c send req res
  else if method_matches "GET" (method req) && path_matches "/health" (url req) then
    reply (health w res)
  else reply (finalhandler_404 req res).

(** The application from the CORS middleware on, for a request whose body
    bodyParser.json() has parsed: the CORS middleware, the routes. *)
Definition app (c : constants) (w : world) (send : provider) (req : request)
  : outcome :=
  match cors_middleware c req fresh with
  | Next res => router c w send req res
  | NextErr _ res => reply (finalhandler_500 res)
  | End res => reply res
  end.

(** The whole application: bodyParser.json() comes first, and the error it
    raises for a body it does not take goes past every middleware and route
    to the framework's final handler. *)
Definition serve (c : constants) (w : world) (send : provider) (i : incoming)
  : outcome :=
  match in_body i with
  | BodyParsed b => app c w send (with_body i b)
  | BodyRejected err => reply (finalhandler_error w err fresh)
  end.

End IndexJs.


(* ===================================================================== *)
(** * src/unnamed/part_001 (the SendGrid variant) *)
(* ===================================================================== *)

Module Part001.
Import JS Express.

Definition load (env : process_env) : constants :=
  {| ALLOWED_ORIGINS :=
       split comma (env_or (env_ALLOWED_ORIGINS env) "https://kenyaonabudgetsafaris.co.uk");
     API_SECRET_KEY := env_or (env_API_SECRET_KEY env) "your-secret-key-here" |}.

Definition cors_middleware (c : constants) (req : request) (res : response) : step :=
  let origin := header req "origin" in
  let res1 :=
    match origin with
    | Some o =>
        if includes (ALLOWED_ORIGINS c) o then
          setHeader
            (setHeader (setHeader res ACAO o) ACAM "GET, POST, OPTIONS")
            ACAH "Content-Type, Authorization, X-API-Key"
        else res
    | None => res
    end in
  if method req =? "OPTIONS" then End (sendStatus_200 res1) else Next res1.

Definition validateApiKey (c : constants) (req : request) (res : response) : step :=
  let apiKey := header req "x-api-key" in
  if absent apiKey || differs apiKey (API_SECRET_KEY c) then
    End (status_json res 401 (VObj [("error", VStr "Unauthorized: Invalid API key")]))
  else Next res.

(** The message [msg], with [msg.cc = cc] added under its guard. *)
Definition msg (b : value) : value :=
  let to := prop b "to" in
  let subject := prop b "subject" in
  let html := prop b "html" in
  let cc := prop b "cc" in
  let from := prop b "from" in
  VObj ([("to", to);
         ("from", or_else from (VStr "info@kenyaonabudgetsafaris.co.uk"));
         ("subject", subject);
         ("html", html)]
        ++ (if truthy cc && isArray cc && (0 <? List.length (elements cc))%nat
            then [("cc", cc)] else [])).

Definition errorMessage (error : value) : value :=
  if truthy (prop error "response")
  then VStr ("SendGrid error (" ++ ToString (prop error "code") ++ "): "
             ++ stringified (prop (prop error "response") "body"))
  else prop error "message".

(** [`Email sent: ${subject} to ${to} (${emailType || 'general'})`], logged
    once the provider has resolved; [None] when a conversion to a string
    throws. *)
Definition sent_log_line (b : value) : option string :=
  match template (prop b "subject"), template (prop b "to"),
        template (or_else (prop b "emailType") (VStr "general")) with
  | Some subject, Some to, Some emailType =>
      Some ("Email sent: " ++ subject ++ " to " ++ to ++ " (" ++ emailType ++ ")")
  | _, _, _ => None
  end.

Definition send_email (send : provider) (req : request) (res : response) : outcome :=
  let to := prop (body req) "to" in
  let subject := prop (body req) "subject" in
  let html := prop (body req) "html" in
  if negb (truthy to) || negb (truthy subject) || negb (truthy html) then
    reply (status_json res 400
             (VObj [("success", VBool false);
                    ("error", VStr "Missing required fields (to, subject, html)")]))
  else
    let request := msg (body req) in
    let caught (error : value) :=
      {| sent := status_json res 500
                   (VObj [("success", VBool false);
                          ("error", errorMessage error)]);
         provider_calls := [request] |} in
    match send request with
    | Resolved _ =>
        match sent_log_line (body req) with
        | Some _ =>
            {| sent := status_json res 200
                         (VObj [("success", VBool true);
                                ("message", VStr "Email sent successfully")]);
               provider_calls := [request] |}
        | None => caught conversion_TypeError
        end
    | Rejected error => caught error
    end.

Definition send_email_route (c : constants) (send : provider)
    (req : request) (res : response) : outcome :=
  match validateApiKey c req res with
  | Next res1 => send_email send req res1
  | NextErr _ res1 => reply (finalhandler_500 res1)
  | End res1 => reply res1
  end.

Definition health (w : world) (res : response) : response :=
  status_json res 200 (VObj [("status", VStr "up"); ("timestamp", VStr (now w))]).

Definition router (c : constants) (w : world) (send : provider)
    (req : request) (res : response) : outcome :=
  if method_matches "POST" (method req) && path_matches "/send-email" (url req) then
    send_email_route c send req res
  else if method_matches "GET" (method req) && path_matches "/health" (url req) then
    reply (health w res)
  else reply (finalhandler_404 req res).

(** The application from the CORS middleware on, for a request whose body
    bodyParser.json() has parsed. *)
Definition app (c : constants) (w : world) (send : provider) (req : request)
  : outcome :=
  match cors_middleware c req fresh with
  | Next res => router c w send req res
  | NextErr _ res => reply (finalhandler_500 res)
  | End res => reply res
  end.

(** The whole application, bodyParser.json() first; its error goes to the
    framework's final handler. *)
Definition serve (c : constants) (w : world) (send : provider) (i : incoming)
  : outcome :=
  match in_body i with
  | BodyParsed b => app c w send (with_body i b)
  | BodyRejected err => reply (finalhandler_error w err fresh)
  end.

End Part001.


(* ===================================================================== *)
(** * src/unnamed/part_000 (the variant built on the cors package) *)
(* ===================================================================== *)

Module Part000.
Import JS Express CorsPkg.

(** [(process.env.ALLOWED_ORIGINS || '').split(',')], each piece trimmed,
    the empty ones dropped. *)
Definition allowedOriginsFromEnv (env : process_env) : list string :=
  filter (fun origin => (0 <? String.length origin)%nat)
    (map (fun origin => trim origin)
       (split comma (env_or (env_ALLOWED_ORIGINS env) ""))).

Definition base_origins : list string :=
  ["https://kenyaonabudgetsafaris.co.uk";
   "https://www.kenyaonabudgetsafaris.co.uk";
   "http://127.0.0.1:5500";
   "http://localhost:5500";
   "http://localhost:3000"].

(** [.filter((value, index, self) => self.indexOf(value) === index)] *)
Definition remove_duplicates (l : list string) : list string :=
  filter_indexed (fun value index self => (indexOf self value =? Z.of_nat index)%Z) l.

Definition load (env : process_env) : constants :=
  {| ALLOWED_ORIGINS := remove_duplicates (base_origins ++ allowedOriginsFromEnv env);
     API_SECRET_KEY := env_or (env_API_SECRET_KEY env) "thiswillbesecretkey45" |}.

(** The first middleware: it logs the request and stamps the response. *)
Definition logging_middleware (w : world) (res : response) : step :=
  Next (setHeader res "X-Server-Timestamp" (now w)).

Definition cleanOrigin (origin : string) : string :=
  if endsWith origin "/" then slice_0_m1 origin else origin.

(** The [origin] function given to the cors package; its result is the pair
    of arguments it calls back with. *)
Definition origin_function (c : constants) (w : world) (origin : option string)
  : value * value :=
  if absent origin then (VNull, VBool true)
  else
    let o := match origin with Some o => o | None => "" end in
    if includes (ALLOWED_ORIGINS c) (cleanOrigin o) then (VNull, VBool true)
    else if development w then (VNull, VBool true)
    else (new_Error w ("Origin " ++ cleanOrigin o ++ " not allowed by CORS policy"),
          VUndefined).

Definition corsOptions (c : constants) (w : world) : options :=
  {| origin := OriginFunction (origin_function c w);
     credentials := true;
     methods := ["GET"; "POST"; "OPTIONS"];
     allowedHeaders := Some ["Content-Type"; "Authorization"; "X-API-Key"];
     preflightContinue := false;
     optionsSuccessStatus := 204 |}.

Definition validateApiKey (c : constants) (w : world) (req : request) (res : response)
  : step :=
  let apiKey := header req "x-api-key" in
  if absent apiKey then
    End (status_json res 401
           (VObj [("error", VStr "Unauthorized: API key is required");
                  ("status", VStr "error");
                  ("timestamp", VStr (now w))]))
  else if differs apiKey (API_SECRET_KEY c) then
    End (status_json res 401
           (VObj [("error", VStr "Unauthorized: Invalid API key");
                  ("status", VStr "error");
                  ("timestamp", VStr (now w))]))
  else Next res.

Definition cors_test (w : world) (req : request) (res : response) : response :=
  let shown (h : string) :=
    match getHeader res h with
    | Some v => if v =? "" then VStr "Not set" else VStr v
    | None => VStr "Not set"
    end in
  json res
    (VObj [("message", VStr "CORS is working correctly!");
           ("origin", VStr (env_or (header req "origin") "No origin"));
           ("timestamp", VStr (now w));
           ("headers", VObj [("access-control-allow-origin", shown ACAO);
                             ("access-control-allow-methods", shown ACAM);
                             ("access-control-allow-headers", shown ACAH)])]).

Definition health (c : constants) (w : world) (res : response) : response :=
  status_json res 200
    (VObj [("status", VStr "up");
           ("timestamp", VStr (now w));
           ("service", VStr "Email Service");
           ("uptime", uptime w);
           ("environment", VStr (env_or (NODE_ENV w) "production"));
           ("corsSettings",
            VObj [("allowedOrigins", VArr (map VStr (ALLOWED_ORIGINS c)))])]).

(** [Array.isArray(to) ? to.map(email => ({ email })) : [{ email: to }]] *)
Definition recipients (to : value) : value :=
  if isArray to
  then VArr (map (fun email => VObj [("email", email)]) (elements to))
  else VArr [VObj [("email", to)]].

Definition ccRecipients (cc : value) : list value :=
  if truthy cc && isArray cc && (0 <? List.length (elements cc))%nat
  then map (fun ccEmail => VObj [("email", ccEmail)]) (elements cc)
  else [].

Definition sendEmailRequest (b : value) : value :=
  let to := prop b "to" in
  let subject := prop b "subject" in
  let html := prop b "html" in
  let cc := prop b "cc" in
  let from := prop b "from" in
  let name := prop b "name" in
  let sender := VObj [("email", or_else from (VStr "info@kenyaonabudgetsafaris.co.uk"));
                      ("name", or_else name (VStr "KenyaOnABudget Safaris"))] in
  VObj [("sender", sender);
        ("to", recipients to);
        ("cc", if (0 <? List.length (ccRecipients cc))%nat
               then VArr (ccRecipients cc) else VUndefined);
        ("subject", subject);
        ("htmlContent", html)].

(** The catch block's errorMessage.  JSON.stringify does not throw on the
    values of the model, so the inner catch is not entered. *)
Definition errorMessage (error : value) : value :=
  if truthy (prop error "response") then
    VStr ("Brevo API error: "
          ++ stringified (or_else (prop (prop error "response") "text")
                            (or_else (prop (prop error "response") "body")
                               (VStr "Unknown API error"))))
  else prop error "message".

(** [`Email sent successfully: ${subject} to ${to} (${emailType || 'general'})`],
    logged once the provider has resolved; [None] when a conversion to a
    string throws. *)
Definition sent_log_line (b : value) : option string :=
  match template (prop b "subject"), template (prop b "to"),
        template (or_else (prop b "emailType") (VStr "general")) with
  | Some subject, Some to, Some emailType =>
      Some ("Email sent successfully: " ++ subject ++ " to " ++ to
            ++ " (" ++ emailType ++ ")")
  | _, _, _ => None
  end.

(** The handler of POST /send-email.  The logging before the validation
    prints objects and converts nothing to a string; the try block covers
    the awaited send and the log line after it. *)
Definition send_email (w : world) (send : provider) (req : request) (res : response)
  : outcome :=
  let to := prop (body req) "to" in
  let subject := prop (body req) "subject" in
  let html := prop (body req) "html" in
  if negb (truthy to) || negb (truthy subject) || negb (truthy html) then
    reply (status_json res 400
             (VObj [("success", VBool false);
                    ("error", VStr "Missing required fields (to, subject, html)");
                    ("timestamp", VStr (now w))]))
  else
    let request := sendEmailRequest (body req) in
    let caught (error : value) :=
      {| sent := status_json res 500
                   (VObj [("success", VBool false);
                          ("error", errorMessage error);
                          ("stack", if development w then prop error "stack"
                                    else VUndefined);
                          ("timestamp", VStr (now w))]);
         provider_calls := [request] |} in
    match send request with
    | Resolved data =>
        match sent_log_line (body req) with
        | Some _ =>
            {| sent := status_json res 200
                         (VObj [("success", VBool true);
                                ("message", VStr "Email sent successfully");
                                ("data", data);
                                ("timestamp", VStr (now w))]);
               provider_calls := [request] |}
        | None => caught (new_TypeError w "Cannot convert object to primitive value")
        end
    | Rejected error => caught error
    end.

(** The catch-all for unmatched routes. *)
Definition not_found (w : world) (req : request) (res : response) : response :=
  status_json res 404
    (VObj [("error", VStr "Not Found");
           ("message", VStr ("The requested endpoint " ++ method req ++ " "
                             ++ url req ++ " does not exist"));
           ("timestamp", VStr (now w))]).

(** The error handler, the last middleware: it takes every next(err). *)
Definition error_handler (w : world) (err : value) (res : response) : response :=
  status_json res 500
    (VObj [("error", VStr "Internal Server Error");
           ("message", if development w then prop err "message"
                       else VStr "An unexpected error occurred");
           ("stack", if development w then prop err "stack" else VUndefined);
           ("timestamp", VStr (now w))]).

Definition send_email_route (c : constants) (w : world) (send : provider)
    (req : request) (res : response) : outcome :=
  match validateApiKey c w req res with
  | Next res1 => send_email w send req res1
  | NextErr err res1 => reply (error_handler w err res1)
  | End res1 => reply res1
  end.

(** The routes in their order, matched as the framework matches them, down
    to the catch-all. *)
Definition router (c : constants) (w : world) (send : provider)
    (req : request) (res : response) : outcome :=
  if method_matches "GET" (method req) && path_matches "/cors-test" (url req) then
    reply (cors_test w req res)
  else if method_matches "GET" (method req) && path_matches "/health" (url req) then
    reply (health c w res)
  else if method_matches "POST" (method req) && path_matches "/send-email" (url req) then
    send_email_route c w send req res
  else reply (not_found w req res).

(** [app.options('*', cors())] *)
Definition options_route (req : request) (res : response) : step :=
  if method req =? "OPTIONS" then corsMiddleware defaults req res else Next res.

(** The application for a request whose body bodyParser.json() has parsed:
    logging, cors(corsOptions), the OPTIONS route, the routes; a next(err)
    anywhere goes to the error handler. *)
Definition app (c : constants) (w : world) (send : provider) (req : request)
  : outcome :=
  match logging_middleware w fresh with
  | Next res0 =>
      match corsMiddleware (corsOptions c w) req res0 with
      | Next res1 =>
          match options_route req res1 with
          | Next res2 => router c w send req res2
          | NextErr err res2 => reply (error_handler w err res2)
          | End res2 => reply res2
          end
      | NextErr err res1 => reply (error_handler w err res1)
      | End res1 => reply res1
      end
  | NextErr err res0 => reply (error_handler w err res0)
  | End res0 => reply res0
  end.

(** The whole application: bodyParser.json() stands between the logging and
    cors(corsOptions), and the error it raises for a body it does not take
    goes past CORS and the routes to the error handler. *)
Definition serve (c : constants) (w : world) (send : provider) (i : incoming)
  : outcome :=
  match in_body i with
  | BodyParsed b => app c w send (with_body i b)
  | BodyRejected err =>
      match logging_middleware w fresh with
      | Next res0 => reply (error_handler w err res0)
      | NextErr err0 res0 => reply (error_handler w err0 res0)
      | End res0 => reply res0
      end
  end.

End Part000.


(* ===================================================================== *)
(** * Vocabulary of the properties, and sample data *)
(* ===================================================================== *)

Module Observations.
Import JS Express.

(** The JSON document a response carries (undefined when it carries none). *)
Definition body_of (r : response) : value :=
  match resBody r with
  | Json v => v
  | _ => VUndefined
  end.

(** A field is missing from the body (reading it gives undefined), or holds
    null, the empty string, 0 or false. *)
Definition missing_or_falsy (b : value) (field : string) : Prop :=
  prop b field = VUndefined \/ prop b field = VNull \/ prop b field = VStr ""
  \/ prop b field = VNum 0 \/ prop b field = VBool false.

Definition lacks_required_field (b : value) : Prop :=
  missing_or_falsy b "to" \/ missing_or_falsy b "subject" \/ missing_or_falsy b "html".

(** The body passes the handler's validation. *)
Definition validated (b : value) : Prop :=
  truthy (prop b "to") = true /\ truthy (prop b "subject") = true
  /\ truthy (prop b "html") = true.

(** HTTP 400 with success=false and the descriptive error, and no call to
    the provider. *)
Definition rejected_400 (o : outcome) : Prop :=
  statusCode (sent o) = 400%Z
  /\ prop (body_of (sent o)) "success" = VBool false
  /\ prop (body_of (sent o)) "error" = VStr "Missing required fields (to, subject, html)"
  /\ provider_calls o = [].

(** HTTP 401 with the given error message, and no call to the provider. *)
Definition rejected_401 (message : string) (o : outcome) : Prop :=
  statusCode (sent o) = 401%Z
  /\ prop (body_of (sent o)) "error" = VStr message
  /\ provider_calls o = [].

(** HTTP 401 with an unauthorized error, and no call to the provider. *)
Definition unauthorized (o : outcome) : Prop :=
  rejected_401 "Unauthorized: API key is required" o
  \/ rejected_401 "Unauthorized: Invalid API key" o.

(** The X-API-Key header is absent, or is not the configured secret. *)
Definition key_absent_or_wrong (c : constants) (req : request) : Prop :=
  header req "x-api-key" = None
  \/ exists k, header req "x-api-key" = Some k /\ k <> API_SECRET_KEY c.

(** The request is a POST to /send-email. *)
Definition post_send_email (req : request) : Prop :=
  method req = "POST" /\ url req = "/send-email".

(** The request is one the framework hands to the POST /send-email route:
    a POST whose path is /send-email, in any case, with or without a
    trailing slash or a query string. *)
Definition routed_to_send_email (req : request) : Prop :=
  method req = "POST" /\ path_matches "/send-email" (url req) = true.

(** The request carries the configured secret, which is not empty. *)
Definition key_valid (c : constants) (req : request) : Prop :=
  header req "x-api-key" = Some (API_SECRET_KEY c) /\ API_SECRET_KEY c <> "".

(** The headers the custom CORS middleware adds for an origin. *)
Definition custom_cors_headers (c : constants) (req : request) : response :=
  match header req "origin" with
  | Some o =>
      if includes (ALLOWED_ORIGINS c) o then
        setHeader
          (setHeader (setHeader fresh ACAO o) ACAM "GET, POST, OPTIONS")
          ACAH "Content-Type, Authorization, X-API-Key"
      else fresh
  | None => fresh
  end.

(** The response as the first two middlewares of part_000 leave it for a
    request the cors package lets through and that is no pre-flight. *)
Definition package_cors_headers (c : constants) (w : world) (req : request) : response :=
  CorsPkg.applyHeaders
    (CorsPkg.configureOrigin (VBool true) req
     ++ CorsPkg.configureCredentials (Part000.corsOptions c w))
    (setHeader fresh "X-Server-Timestamp" (now w)).

(** The cors origin function lets the request through. *)
Definition origin_let_through (c : constants) (w : world) (req : request) : Prop :=
  Part000.origin_function c w (header req "origin") = (VNull, VBool true).

(** HTTP 500 with success=false and the given error. *)
Definition failed_500 (error : value) (o : outcome) : Prop :=
  statusCode (sent o) = 500%Z
  /\ prop (body_of (sent o)) "success" = VBool false
  /\ prop (body_of (sent o)) "error" = error.


(** No CORS header is on the response. *)
Definition cors_withheld (r : response) : Prop :=
  getHeader r ACAO = None /\ getHeader r ACAM = None /\ getHeader r ACAH = None.


(** The object [o] with its property [k] removed. *)
Definition without (k : string) (o : value) : value :=
  match o with
  | VObj kvs => VObj (filter (fun kv => negb (fst kv =? k)) kvs)
  | _ => o
  end.

(** The object [o] has an own property [k]. *)
Definition has_own (o : value) (k : string) : bool :=
  match o with
  | VObj kvs => match assoc k kvs with Some _ => true | None => false end
  | _ => false
  end.

(** The provider's one-object-per-address shape. *)
Definition address (email : value) : value := VObj [("email", email)].

End Observations.

Module Samples.
Import JS Express.

Definition env_default : process_env :=
  {| env_ALLOWED_ORIGINS := None; env_API_SECRET_KEY := None |}.

Definition env_extra_origin : process_env :=
  {| env_ALLOWED_ORIGINS := Some " https://a.example/ , http://localhost:3000";
     env_API_SECRET_KEY := None |}.

Definition production : world :=
  {| NODE_ENV := None; now := "2025-01-01T00:00:00.000Z"; uptime := VNum 1; trace := "" |}.

Definition provider_ok : provider :=
  fun _ => Resolved (VObj [("messageId", VStr "m-1")]).

(** A provider failure with a structured response: HTTP status 401. *)
Definition provider_error : value :=
  VObj [("message", VStr "Unauthorized");
        ("code", VNum 401);
        ("status", VNum 401);
        ("response", VObj [("status", VNum 401);
                           ("text", VStr "oops");
                           ("body", VObj [("errors", VArr [])])])].

Definition provider_failing : provider := fun _ => Rejected provider_error.

Definition post (hs : list (string * string)) (b : value) : request :=
  {| method := "POST"; url := "/send-email"; headers := hs; body := b |}.

Definition body_single : value :=
  VObj [("to", VStr "a@x.com"); ("subject", VStr "Hi"); ("html", VStr "<p>hi</p>")].

Definition body_list : value :=
  VObj [("to", VArr [VStr "a@x.com"; VStr "b@x.com"]);
        ("subject", VStr "Hi");
        ("html", VStr "<p>hi</p>");
        ("cc", VArr [VStr "c@x.com"])].



Definition body_no_subject : value :=
  VObj [("to", VStr "a@x.com"); ("subject", VStr ""); ("html", VStr "<p>hi</p>")].

End Samples.


(* ===================================================================== *)
(** * Further vocabulary: the rest of the request handling *)
(* ===================================================================== *)

Module Coverage.
Import JS Express Observations.

(** The response of part_000 to a pre-flight the cors package lets through:
    what [CorsPkg.cors] ends the request with. *)
Definition preflight_response (c : constants) (w : world) (req : request) : response :=
  {| statusCode := 204;
     resHeaders :=
       resHeaders
         (setHeader
            (CorsPkg.applyHeaders
               (CorsPkg.configureOrigin (VBool true) req
                ++ CorsPkg.configureCredentials (Part000.corsOptions c w)
                ++ CorsPkg.configureMethods (Part000.corsOptions c w)
                ++ CorsPkg.configureAllowedHeaders (Part000.corsOptions c w) req)
               (setHeader fresh "X-Server-Timestamp" (now w)))
            "Content-Length" "0");
     resBody := NoBody |}.



(** HTTP 200 with success=true and the success message, after exactly the
    one provider call [request]. *)
Definition sent_200 (request : value) (o : outcome) : Prop :=
  statusCode (sent o) = 200%Z
  /\ prop (body_of (sent o)) "success" = VBool true
  /\ prop (body_of (sent o)) "message" = VStr "Email sent successfully"
  /\ provider_calls o = [request].

(** The elements of [l] that are not in [seen] and have not occurred earlier
    in [l]: what the duplicate filter keeps, told structurally. *)
Fixpoint fresh_elements (seen l : list string) : list string :=
  match l with
  | [] => []
  | x :: t =>
      if includes seen x then fresh_elements seen t
      else x :: fresh_elements (x :: seen) t
  end.

(** The string holds no comma. *)
Fixpoint comma_free (s : string) : bool :=
  match s with
  | "" => true
  | String ch t => negb (Ascii.eqb ch comma) && comma_free t
  end.

(** An origin as one writes it in ALLOWED_ORIGINS: not empty, without a
    comma, and such that trim leaves it as it is (no white space at either
    end). *)
Definition plain_entry (s : string) : Prop :=
  s <> "" /\ comma_free s = true /\ trim s = s.



Definition options_request (path : string) (hs : list (string * string)) : request :=
  {| method := "OPTIONS"; url := path; headers := hs; body := VObj [] |}.

(** The handler can write its log line for the body: the three values it
    puts into the line convert to strings. *)
Definition loggable (b : value) : Prop :=
  printable (prop b "subject") = true
  /\ printable (prop b "to") = true
  /\ printable (or_else (prop b "emailType") (VStr "general")) = true.

(** A body whose subject is an object with a toString entry. *)
Definition body_unloggable : value :=
  VObj [("to", VStr "a@x.com"); ("subject", VObj [("toString", VNum 1)]);
        ("html", VStr "<p>hi</p>")].

Definition body_empty_recipients : value :=
  VObj [("to", VArr []); ("subject", VStr "Hi"); ("html", VStr "<p>hi</p>")].




End Coverage.


(* ===================================================================== *)
(** * Facts about the built-ins *)
(* ===================================================================== *)

Module JSFacts.
Import JS.

Lemma includes_In (l : list string) (x : string) :
  includes l x = true <-> In x l.
Proof.
  unfold includes. rewrite existsb_exists. split.
  - intros [y [Hy Heq]]. apply String.eqb_eq in Heq. now subst.
  - intros H. exists x. split; [assumption | apply String.eqb_refl].
Qed.

Lemma includes_false (l : list string) (x : string) :
  includes l x = false <-> ~ In x l.
Proof.
  rewrite <- includes_In. destruct (includes l x); split; congruence.
Qed.

(** ** indexOf and the duplicate filter *)

Lemma indexOf_from_skip (pre suf : list string) (x : string) (i : nat) :
  ~ In x pre ->
  indexOf_from (pre ++ suf) x i = indexOf_from suf x (i + List.length pre).
Proof.
  revert i. induction pre as [| y pre IH]; intros i Hnot; simpl.
  - now rewrite Nat.add_0_r.
  - destruct (String.eqb_spec y x) as [-> | Hne].
    + exfalso. apply Hnot. now left.
    + rewrite IH by (intro; apply Hnot; now right).
      f_equal. lia.
Qed.

Lemma indexOf_from_found (pre suf : list string) (x : string) (i : nat) :
  In x pre ->
  (Z.of_nat i <= indexOf_from (pre ++ suf) x i < Z.of_nat (i + List.length pre))%Z.
Proof.
  revert i. induction pre as [| y pre IH]; intros i Hin; simpl.
  - contradiction.
  - destruct (String.eqb_spec y x) as [-> | Hne].
    + lia.
    + destruct Hin as [-> | Hin]; [congruence |].
      specialize (IH (S i) Hin). lia.
Qed.

(** In [pre ++ x :: suf] the element at index [length pre] is the first
    occurrence of [x] exactly when [x] does not occur in [pre]. *)
Lemma indexOf_first (pre suf : list string) (x : string) :
  (indexOf (pre ++ x :: suf) x =? Z.of_nat (List.length pre))%Z = negb (includes pre x).
Proof.
  unfold indexOf. destruct (includes pre x) eqn:E; simpl.
  - apply includes_In in E.
    pose proof (indexOf_from_found pre (x :: suf) x 0 E) as H.
    apply Z.eqb_neq. simpl in H. lia.
  - apply includes_false in E.
    rewrite indexOf_from_skip by assumption. simpl.
    rewrite String.eqb_refl. apply Z.eqb_refl.
Qed.

(** The callback [(value, index, self) => self.indexOf(value) === index]
    keeps, of the elements of [suf] standing after [pre] in [self], those
    that occur neither in [pre] nor earlier in [suf]. *)
Lemma filter_from_first_In (self suf pre : list string) (y : string) :
  self = (pre ++ suf)%list ->
  In y (filter_from (fun v i => (indexOf self v =? Z.of_nat i)%Z) suf (List.length pre))
  <-> In y suf /\ ~ In y pre.
Proof.
  revert pre. induction suf as [| x t IH]; intros pre Hself; simpl.
  - tauto.
  - assert (Hself' : self = ((pre ++ [x]) ++ t)%list) by (now rewrite <- app_assoc).
    specialize (IH (pre ++ [x])%list Hself').
    rewrite length_app in IH. simpl in IH. rewrite Nat.add_1_r in IH.
    rewrite Hself at 1. rewrite indexOf_first.
    destruct (includes pre x) eqn:E; simpl.
    + apply includes_In in E. rewrite IH, in_app_iff. simpl.
      split.
      * intros [Ht Hn]. split; [now right | tauto].
      * intros [[-> | Ht] Hn]; [contradiction |].
        split; [assumption |]. intros [Hp | [-> | []]]; contradiction.
    + apply includes_false in E. rewrite IH, in_app_iff. simpl.
      split.
      * intros [-> | [Ht Hn]]; [tauto |]. split; [now right | tauto].
      * intros [[-> | Ht] Hn]; [now left |].
        destruct (string_dec x y) as [-> | Hne]; [now left | right].
        split; [assumption |]. intros [Hp | [-> | []]]; [contradiction | congruence].
Qed.

Lemma filter_from_first_NoDup (self suf pre : list string) :
  self = (pre ++ suf)%list ->
  NoDup (filter_from (fun v i => (indexOf self v =? Z.of_nat i)%Z) suf (List.length pre)).
Proof.
  revert pre. induction suf as [| x t IH]; intros pre Hself; simpl.
  - constructor.
  - assert (Hself' : self = ((pre ++ [x]) ++ t)%list) by (now rewrite <- app_assoc).
    pose proof (IH (pre ++ [x])%list Hself') as Hnd.
    pose proof (fun y => filter_from_first_In self t (pre ++ [x])%list y Hself') as Hin.
    rewrite length_app in Hnd, Hin. simpl in Hnd, Hin. rewrite Nat.add_1_r in Hnd, Hin.
    destruct (indexOf self x =? Z.of_nat (List.length pre))%Z; [| assumption].
    constructor; [| assumption].
    intros Hx. apply Hin in Hx. destruct Hx as [_ Hn].
    apply Hn. apply in_app_iff. right. now left.
Qed.

(** ** trim *)

Lemma trimStart_head_bounded (n : nat) :
  forall s, String.length s <= n -> starts_with_whitespace (trimStart s) = false.
Proof.
  induction n as [| n IH]; intros s Hlen.
  - destruct s; [reflexivity | simpl in Hlen; lia].
  - destruct s as [| a t]; [reflexivity |].
    cbn [trimStart]. destruct (is_whitespace a) eqn:Ea.
    + apply IH. simpl in Hlen. lia.
    + destruct t as [| b t2]; [simpl; assumption |].
      destruct (is_whitespace2 a b).
      * apply IH. simpl in Hlen. lia.
      * destruct t2 as [| c t3]; [simpl; assumption |].
        destruct (is_whitespace3 a b c); [| simpl; assumption].
        apply IH. simpl in Hlen. lia.
Qed.

Lemma trimStart_head (s : string) : starts_with_whitespace (trimStart s) = false.
Proof. apply (trimStart_head_bounded (String.length s)). lia. Qed.

Lemma trimEnd_head (s : string) :
  starts_with_whitespace s = false -> starts_with_whitespace (trimEnd s) = false.
Proof.
  destruct s as [| a t]; [reflexivity |].
  intros Ha. cbn [trimEnd]. destruct (trimStart (String a t) =? ""); [reflexivity |].
  exact Ha.
Qed.

(** trimEnd leaves nothing only of the empty string and of white space. *)
Lemma trimEnd_empty (s : string) : trimEnd s = "" -> trimStart s = "".
Proof.
  destruct s as [| a t]; [reflexivity |].
  cbn [trimEnd]. destruct (String.eqb_spec (trimStart (String a t)) "") as [E | _].
  - intros _. exact E.
  - discriminate.
Qed.

Lemma trimEnd_last (s : string) : ends_with_whitespace (trimEnd s) = false.
Proof.
  induction s as [| a t IH]; [reflexivity |].
  cbn [trimEnd]. destruct (String.eqb_spec (trimStart (String a t)) "") as [E | E];
    [reflexivity |].
  destruct (trimEnd t) as [| d t'] eqn:Et.
  - simpl. destruct (is_whitespace a) eqn:Ea; [| reflexivity].
    exfalso. apply E. cbn [trimStart]. rewrite Ea. now apply trimEnd_empty.
  - exact IH.
Qed.

(** What trim returns neither starts nor ends with white space. *)
Lemma trim_trimmed (s : string) :
  starts_with_whitespace (trim s) = false /\ ends_with_whitespace (trim s) = false.
Proof.
  unfold trim. split.
  - apply trimEnd_head, trimStart_head.
  - apply trimEnd_last.
Qed.

(** ** Searching a string *)







End JSFacts.


(* ===================================================================== *)
(** * Facts about the three programs *)
(* ===================================================================== *)

Module ProgramFacts.
Import JS Express CorsPkg Observations.

(** The falsy values are the ones the test [!field] lets through. *)
Lemma missing_or_falsy_iff (b : value) (field : string) :
  missing_or_falsy b field <-> truthy (prop b field) = false.
Proof.
  unfold missing_or_falsy. destruct (prop b field) as [| | [] | n | s | l | kvs]; simpl;
    split; intros H; try tauto; try discriminate;
    try (repeat (destruct H as [H | H]; try discriminate)).
  - injection H as ->. reflexivity.
  - apply negb_false_iff, Z.eqb_eq in H. subst. tauto.
  - injection H as ->. reflexivity.
  - apply negb_false_iff, String.eqb_eq in H. subst. tauto.
Qed.

Lemma validation_guard_lacks (b : value) :
  lacks_required_field b ->
  negb (truthy (prop b "to")) || negb (truthy (prop b "subject"))
  || negb (truthy (prop b "html")) = true.
Proof.
  unfold lacks_required_field.
  intros [H | [H | H]]; apply missing_or_falsy_iff in H; rewrite H; simpl;
    repeat rewrite orb_true_r; reflexivity.
Qed.

(** A body either lacks a required field or passes the validation. *)
Lemma validated_iff_not_lacks (b : value) :
  validated b <-> ~ lacks_required_field b.
Proof.
  unfold validated, lacks_required_field. rewrite !missing_or_falsy_iff.
  destruct (truthy (prop b "to")), (truthy (prop b "subject")),
    (truthy (prop b "html")); intuition congruence.
Qed.

Lemma validation_guard_validated (b : value) :
  validated b ->
  negb (truthy (prop b "to")) || negb (truthy (prop b "subject"))
  || negb (truthy (prop b "html")) = false.
Proof.
  intros (H1 & H2 & H3). rewrite H1, H2, H3. reflexivity.
Qed.

(** The key checks, on a key that is the non-empty secret. *)
Lemma key_valid_checks (c : constants) (req : request) :
  key_valid c req ->
  absent (header req "x-api-key") = false
  /\ differs (header req "x-api-key") (API_SECRET_KEY c) = false.
Proof.
  intros [Hk Hne]. rewrite Hk. simpl. split.
  - now apply String.eqb_neq.
  - now rewrite String.eqb_refl.
Qed.

(** ** The handlers on a body that lacks a required field *)

Lemma IndexJs_send_email_lacks (send : provider) (req : request) (res : response) :
  lacks_required_field (body req) ->
  IndexJs.send_email send req res =
  reply (status_json res 400
           (VObj [("success", VBool false);
                  ("error", VStr "Missing required fields (to, subject, html)")])).
Proof.
  intros H. unfold IndexJs.send_email.
  now rewrite (validation_guard_lacks _ H).
Qed.

Lemma Part001_send_email_lacks (send : provider) (req : request) (res : response) :
  lacks_required_field (body req) ->
  Part001.send_email send req res =
  reply (status_json res 400
           (VObj [("success", VBool false);
                  ("error", VStr "Missing required fields (to, subject, html)")])).
Proof.
  intros H. unfold Part001.send_email.
  now rewrite (validation_guard_lacks _ H).
Qed.

Lemma Part000_send_email_lacks (w : world) (send : provider) (req : request)
    (res : response) :
  lacks_required_field (body req) ->
  Part000.send_email w send req res =
  reply (status_json res 400
           (VObj [("success", VBool false);
                  ("error", VStr "Missing required fields (to, subject, html)");
                  ("timestamp", VStr (now w))])).
Proof.
  intros H. unfold Part000.send_email.
  now rewrite (validation_guard_lacks _ H).
Qed.

(** ** The handlers on a validated body: one provider call *)

Lemma IndexJs_send_email_validated (send : provider) (req : request) (res : response) :
  validated (body req) ->
  IndexJs.send_email send req res =
  let request := IndexJs.sendEmailRequest (body req) in
  let caught (error : value) :=
    {| sent := status_json res 500
                 (VObj [("success", VBool false);
                        ("error", IndexJs.errorMessage error)]);
       provider_calls := [request] |} in
  match send request with
  | Resolved data =>
      match IndexJs.sent_log_line (body req) with
      | Some _ =>
          {| sent := status_json res 200
                       (VObj [("success", VBool true);
                              ("message", VStr "Email sent successfully");
                              ("data", data)]);
             provider_calls := [request] |}
      | None => caught conversion_TypeError
      end
  | Rejected error => caught error
  end.
Proof.
  intros H. unfold IndexJs.send_email.
  now rewrite (validation_guard_validated _ H).
Qed.

Lemma Part001_send_email_validated (send : provider) (req : request) (res : response) :
  validated (body req) ->
  Part001.send_email send req res =
  let request := Part001.msg (body req) in
  let caught (error : value) :=
    {| sent := status_json res 500
                 (VObj [("success", VBool false);
                        ("error", Part001.errorMessage error)]);
       provider_calls := [request] |} in
  match send request with
  | Resolved _ =>
      match Part001.sent_log_line (body req) with
      | Some _ =>
          {| sent := status_json res 200
                       (VObj [("success", VBool true);
                              ("message", VStr "Email sent successfully")]);
             provider_calls := [request] |}
      | None => caught conversion_TypeError
      end
  | Rejected error => caught error
  end.
Proof.
  intros H. unfold Part001.send_email.
  now rewrite (validation_guard_validated _ H).
Qed.

Lemma Part000_send_email_validated (w : world) (send : provider) (req : request)
    (res : response) :
  validated (body req) ->
  Part000.send_email w send req res =
  let request := Part000.sendEmailRequest (body req) in
  let caught (error : value) :=
    {| sent := status_json res 500
                 (VObj [("success", VBool false);
                        ("error", Part000.errorMessage error);
                        ("stack", if development w then prop error "stack"
                                  else VUndefined);
                        ("timestamp", VStr (now w))]);
       provider_calls := [request] |} in
  match send request with
  | Resolved data =>
      match Part000.sent_log_line (body req) with
      | Some _ =>
          {| sent := status_json res 200
                       (VObj [("success", VBool true);
                              ("message", VStr "Email sent successfully");
                              ("data", data);
                              ("timestamp", VStr (now w))]);
             provider_calls := [request] |}
      | None => caught (new_TypeError w "Cannot convert object to primitive value")
      end
  | Rejected error => caught error
  end.
Proof.
  intros H. unfold Part000.send_email.
  now rewrite (validation_guard_validated _ H).
Qed.

(** ** The key check *)

Lemma key_absent_or_wrong_checks (c : constants) (req : request) :
  key_absent_or_wrong c req ->
  absent (header req "x-api-key") || differs (header req "x-api-key") (API_SECRET_KEY c)
  = true.
Proof.
  intros [H | (k & H & Hne)]; rewrite H; simpl; [reflexivity |].
  apply String.eqb_neq in Hne. rewrite Hne. apply orb_true_r.
Qed.

Lemma IndexJs_route_rejects (c : constants) (send : provider) (req : request)
    (res : response) :
  absent (header req "x-api-key") || differs (header req "x-api-key") (API_SECRET_KEY c)
  = true ->
  IndexJs.send_email_route c send req res =
  reply (status_json res 401 (VObj [("error", VStr "Unauthorized: Invalid API key")])).
Proof.
  intros H. unfold IndexJs.send_email_route, IndexJs.validateApiKey.
  now rewrite H.
Qed.

Lemma Part001_route_rejects (c : constants) (send : provider) (req : request)
    (res : response) :
  absent (header req "x-api-key") || differs (header req "x-api-key") (API_SECRET_KEY c)
  = true ->
  Part001.send_email_route c send req res =
  reply (status_json res 401 (VObj [("error", VStr "Unauthorized: Invalid API key")])).
Proof.
  intros H. unfold Part001.send_email_route, Part001.validateApiKey.
  now rewrite H.
Qed.

Lemma Part000_route_rejects (c : constants) (w : world) (send : provider)
    (req : request) (res : response) :
  absent (header req "x-api-key") || differs (header req "x-api-key") (API_SECRET_KEY c)
  = true ->
  Part000.send_email_route c w send req res =
  reply (status_json res 401
           (VObj [("error",
                   VStr (if absent (header req "x-api-key")
                         then "Unauthorized: API key is required"
                         else "Unauthorized: Invalid API key"));
                  ("status", VStr "error");
                  ("timestamp", VStr (now w))])).
Proof.
  intros H. unfold Part000.send_email_route, Part000.validateApiKey.
  destruct (absent (header req "x-api-key")); [reflexivity |].
  simpl in H. now rewrite H.
Qed.

Lemma IndexJs_route_passes (c : constants) (send : provider) (req : request)
    (res : response) :
  absent (header req "x-api-key") || differs (header req "x-api-key") (API_SECRET_KEY c)
  = false ->
  IndexJs.send_email_route c send req res = IndexJs.send_email send req res.
Proof.
  intros H. unfold IndexJs.send_email_route, IndexJs.validateApiKey.
  now rewrite H.
Qed.

Lemma Part001_route_passes (c : constants) (send : provider) (req : request)
    (res : response) :
  absent (header req "x-api-key") || differs (header req "x-api-key") (API_SECRET_KEY c)
  = false ->
  Part001.send_email_route c send req res = Part001.send_email send req res.
Proof.
  intros H. unfold Part001.send_email_route, Part001.validateApiKey.
  now rewrite H.
Qed.

Lemma Part000_route_passes (c : constants) (w : world) (send : provider)
    (req : request) (res : response) :
  absent (header req "x-api-key") || differs (header req "x-api-key") (API_SECRET_KEY c)
  = false ->
  Part000.send_email_route c w send req res = Part000.send_email w send req res.
Proof.
  intros H. apply orb_false_elim in H. destruct H as [Ha Hd].
  unfold Part000.send_email_route, Part000.validateApiKey.
  now rewrite Ha, Hd.
Qed.

(** ** Where a request ends up *)

Lemma IndexJs_app_unfold (c : constants) (w : world) (send : provider) (req : request) :
  IndexJs.app c w send req =
  if method req =? "OPTIONS" then reply (sendStatus_200 (custom_cors_headers c req))
  else IndexJs.router c w send req (custom_cors_headers c req).
Proof.
  unfold IndexJs.app, IndexJs.cors_middleware, custom_cors_headers.
  destruct (method req =? "OPTIONS"); reflexivity.
Qed.

Lemma Part001_app_unfold (c : constants) (w : world) (send : provider) (req : request) :
  Part001.app c w send req =
  if method req =? "OPTIONS" then reply (sendStatus_200 (custom_cors_headers c req))
  else Part001.router c w send req (custom_cors_headers c req).
Proof.
  unfold Part001.app, Part001.cors_middleware, custom_cors_headers.
  destruct (method req =? "OPTIONS"); reflexivity.
Qed.



Lemma IndexJs_app_routed (c : constants) (w : world) (send : provider) (req : request) :
  routed_to_send_email req ->
  IndexJs.app c w send req =
  IndexJs.send_email_route c send req (custom_cors_headers c req).
Proof.
  intros [Hm Hu]. rewrite IndexJs_app_unfold. unfold IndexJs.router.
  rewrite Hm, Hu. reflexivity.
Qed.

Lemma Part001_app_routed (c : constants) (w : world) (send : provider) (req : request) :
  routed_to_send_email req ->
  Part001.app c w send req =
  Part001.send_email_route c send req (custom_cors_headers c req).
Proof.
  intros [Hm Hu]. rewrite Part001_app_unfold. unfold Part001.router.
  rewrite Hm, Hu. reflexivity.
Qed.

(** ** Body parsing in front of the application *)

Lemma with_body_accepted (req : request) : with_body (accepted req) (body req) = req.
Proof. now destruct req. Qed.

Lemma IndexJs_serve_accepted (c : constants) (w : world) (send : provider)
    (req : request) :
  IndexJs.serve c w send (accepted req) = IndexJs.app c w send req.
Proof. unfold IndexJs.serve. simpl. now rewrite with_body_accepted. Qed.

Lemma Part001_serve_accepted (c : constants) (w : world) (send : provider)
    (req : request) :
  Part001.serve c w send (accepted req) = Part001.app c w send req.
Proof. unfold Part001.serve. simpl. now rewrite with_body_accepted. Qed.

Lemma Part000_serve_accepted (c : constants) (w : world) (send : provider)
    (req : request) :
  Part000.serve c w send (accepted req) = Part000.app c w send req.
Proof. unfold Part000.serve. simpl. now rewrite with_body_accepted. Qed.

(** A request whose body the parser rejects goes straight to the error
    path: the framework's final handler, or the error handler of part_000. *)
Lemma serve_body_rejected (c : constants) (w : world) (send : provider)
    (i : incoming) (err : value) :
  in_body i = BodyRejected err ->
  IndexJs.serve c w send i = reply (finalhandler_error w err fresh)
  /\ Part001.serve c w send i = reply (finalhandler_error w err fresh)
  /\ Part000.serve c w send i
     = reply (Part000.error_handler w err (setHeader fresh "X-Server-Timestamp" (now w))).
Proof.
  intros H. unfold IndexJs.serve, Part001.serve, Part000.serve. rewrite H.
  repeat split; reflexivity.
Qed.

(** Every outcome of the application is a plain reply, or the outcome of
    the send-email route. *)
Lemma IndexJs_app_cases (c : constants) (w : world) (send : provider) (req : request) :
  (exists r, IndexJs.app c w send req = reply r)
  \/ (exists res, IndexJs.app c w send req = IndexJs.send_email_route c send req res).
Proof.
  rewrite IndexJs_app_unfold. unfold IndexJs.router.
  destruct (method req =? "OPTIONS"); [left; eauto |].
  destruct (method_matches "POST" (method req) && path_matches "/send-email" (url req)); [right; eauto |].
  destruct (method_matches "GET" (method req) && path_matches "/health" (url req)); left; eauto.
Qed.

Lemma Part001_app_cases (c : constants) (w : world) (send : provider) (req : request) :
  (exists r, Part001.app c w send req = reply r)
  \/ (exists res, Part001.app c w send req = Part001.send_email_route c send req res).
Proof.
  rewrite Part001_app_unfold. unfold Part001.router.
  destruct (method req =? "OPTIONS"); [left; eauto |].
  destruct (method_matches "POST" (method req) && path_matches "/send-email" (url req)); [right; eauto |].
  destruct (method_matches "GET" (method req) && path_matches "/health" (url req)); left; eauto.
Qed.

Lemma Part000_router_cases (c : constants) (w : world) (send : provider)
    (req : request) (res : response) :
  (exists r, Part000.router c w send req res = reply r)
  \/ Part000.router c w send req res = Part000.send_email_route c w send req res.
Proof.
  unfold Part000.router.
  destruct (method_matches "GET" (method req) && path_matches "/cors-test" (url req)); [left; eauto |].
  destruct (method_matches "GET" (method req) && path_matches "/health" (url req)); [left; eauto |].
  destruct (method_matches "POST" (method req) && path_matches "/send-email" (url req)); [now right |].
  left; eauto.
Qed.

Lemma Part000_app_cases (c : constants) (w : world) (send : provider) (req : request) :
  (exists r, Part000.app c w send req = reply r)
  \/ (exists res, Part000.app c w send req = Part000.send_email_route c w send req res).
Proof.
  unfold Part000.app, Part000.logging_middleware.
  destruct (corsMiddleware _ req _) as [res1 | err res1 | res1]; [| left; eauto ..].
  destruct (Part000.options_route req res1) as [res2 | err res2 | res2]; [| left; eauto ..].
  destruct (Part000_router_cases c w send req res2) as [[r Hr] | Hr];
    rewrite Hr; [left | right]; eauto.
Qed.

(** ** part_000: what the cors package does with a request *)



Lemma Part000_app_let_through (c : constants) (w : world) (send : provider)
    (req : request) :
  origin_let_through c w req ->
  (method req =? "OPTIONS") = false ->
  Part000.app c w send req = Part000.router c w send req (package_cors_headers c w req).
Proof.
  intros Hpass Hm.
  unfold Part000.app, Part000.logging_middleware, corsMiddleware. simpl.
  unfold origin_let_through in Hpass. rewrite Hpass. simpl.
  unfold cors, Part000.options_route. rewrite Hm. reflexivity.
Qed.

Lemma Part000_app_origin_error (c : constants) (w : world) (send : provider)
    (req : request) (message : string) :
  Part000.origin_function c w (header req "origin") = (new_Error w message, VUndefined) ->
  Part000.app c w send req =
  reply (Part000.error_handler w (new_Error w message)
           (setHeader fresh "X-Server-Timestamp" (now w))).
Proof.
  intros Herr.
  unfold Part000.app, Part000.logging_middleware, corsMiddleware. simpl.
  rewrite Herr. reflexivity.
Qed.

(** The origin function lets the request through or fails with an Error. *)
Lemma Part000_origin_function_cases (c : constants) (w : world) (req : request) :
  origin_let_through c w req
  \/ exists message,
       Part000.origin_function c w (header req "origin") = (new_Error w message, VUndefined).
Proof.
  unfold origin_let_through, Part000.origin_function.
  destruct (absent (header req "origin")); [now left |].
  destruct (includes _ _); [now left |].
  destruct (development w); [now left |].
  right. eauto.
Qed.

(** A request the origin function does not let through is answered by the
    error handler. *)
Lemma Part000_app_not_let_through (c : constants) (w : world) (send : provider)
    (req : request) :
  ~ origin_let_through c w req ->
  statusCode (sent (Part000.app c w send req)) = 500%Z
  /\ prop (body_of (sent (Part000.app c w send req))) "error" = VStr "Internal Server Error"
  /\ provider_calls (Part000.app c w send req) = [].
Proof.
  intros Hnot.
  destruct (Part000_origin_function_cases c w req) as [H | [message H]];
    [contradiction |].
  rewrite (Part000_app_origin_error c w send req message H).
  repeat split; reflexivity.
Qed.


Lemma Part000_app_routed (c : constants) (w : world) (send : provider) (req : request) :
  routed_to_send_email req ->
  origin_let_through c w req ->
  Part000.app c w send req =
  Part000.send_email_route c w send req (package_cors_headers c w req).
Proof.
  intros [Hm Hu] Hpass. rewrite Part000_app_let_through; [| assumption | now rewrite Hm].
  unfold Part000.router. rewrite Hm, Hu.
  destruct (path_matches "/cors-test" (url req)), (path_matches "/health" (url req));
    reflexivity.
Qed.

(** ** Requests that never reach the provider *)

Lemma IndexJs_route_lacks (c : constants) (send : provider) (req : request)
    (res : response) :
  lacks_required_field (body req) ->
  provider_calls (IndexJs.send_email_route c send req res) = [].
Proof.
  intros H.
  destruct (absent (header req "x-api-key")
            || differs (header req "x-api-key") (API_SECRET_KEY c)) eqn:E.
  - now rewrite IndexJs_route_rejects.
  - rewrite IndexJs_route_passes by assumption. now rewrite IndexJs_send_email_lacks.
Qed.

Lemma Part001_route_lacks (c : constants) (send : provider) (req : request)
    (res : response) :
  lacks_required_field (body req) ->
  provider_calls (Part001.send_email_route c send req res) = [].
Proof.
  intros H.
  destruct (absent (header req "x-api-key")
            || differs (header req "x-api-key") (API_SECRET_KEY c)) eqn:E.
  - now rewrite Part001_route_rejects.
  - rewrite Part001_route_passes by assumption. now rewrite Part001_send_email_lacks.
Qed.

Lemma Part000_route_lacks (c : constants) (w : world) (send : provider)
    (req : request) (res : response) :
  lacks_required_field (body req) ->
  provider_calls (Part000.send_email_route c w send req res) = [].
Proof.
  intros H.
  destruct (absent (header req "x-api-key")
            || differs (header req "x-api-key") (API_SECRET_KEY c)) eqn:E.
  - now rewrite Part000_route_rejects.
  - rewrite Part000_route_passes by assumption. now rewrite Part000_send_email_lacks.
Qed.

(** ** The outbound request *)

Lemma cc_guard_off (cc : value) :
  cc = VUndefined \/ isArray cc = false \/ cc = VArr [] ->
  truthy cc && isArray cc && (0 <? List.length (elements cc))%nat = false.
Proof.
  intros [-> | [H | ->]]; [reflexivity | | reflexivity].
  rewrite H. now rewrite andb_false_r.
Qed.

Lemma cc_guard_on (l : list value) :
  l <> [] ->
  truthy (VArr l) && isArray (VArr l) && (0 <? List.length (elements (VArr l)))%nat = true.
Proof.
  destruct l; [congruence | reflexivity].
Qed.

Lemma map_nonempty {A B : Type} (f : A -> B) (l : list A) :
  l <> [] -> (0 <? List.length (map f l))%nat = true.
Proof.
  destruct l; [congruence | reflexivity].
Qed.

Lemma IndexJs_calls (send : provider) (req : request) (res : response) :
  validated (body req) ->
  provider_calls (IndexJs.send_email send req res) = [IndexJs.sendEmailRequest (body req)].
Proof.
  intros H. rewrite IndexJs_send_email_validated by assumption.
  simpl. destruct (send _); [destruct (IndexJs.sent_log_line _) |]; reflexivity.
Qed.

Lemma Part000_calls (w : world) (send : provider) (req : request) (res : response) :
  validated (body req) ->
  provider_calls (Part000.send_email w send req res)
  = [Part000.sendEmailRequest (body req)].
Proof.
  intros H. rewrite Part000_send_email_validated by assumption.
  simpl. destruct (send _); [destruct (Part000.sent_log_line _) |]; reflexivity.
Qed.

Lemma Part001_calls (send : provider) (req : request) (res : response) :
  validated (body req) ->
  provider_calls (Part001.send_email send req res) = [Part001.msg (body req)].
Proof.
  intros H. rewrite Part001_send_email_validated by assumption.
  simpl. destruct (send _); [destruct (Part001.sent_log_line _) |]; reflexivity.
Qed.

(** ** The allow-list of part_000 *)

Lemma remove_duplicates_In (l : list string) (x : string) :
  In x (Part000.remove_duplicates l) <-> In x l.
Proof.
  unfold Part000.remove_duplicates, filter_indexed.
  rewrite (JSFacts.filter_from_first_In l l [] x eq_refl). simpl. tauto.
Qed.

Lemma remove_duplicates_NoDup (l : list string) : NoDup (Part000.remove_duplicates l).
Proof.
  unfold Part000.remove_duplicates, filter_indexed.
  exact (JSFacts.filter_from_first_NoDup l l [] eq_refl).
Qed.

Lemma allowedOriginsFromEnv_In (env : process_env) (x : string) :
  In x (Part000.allowedOriginsFromEnv env) <->
  x <> "" /\ exists raw, In raw (split comma (env_or (env_ALLOWED_ORIGINS env) ""))
                         /\ x = trim raw.
Proof.
  unfold Part000.allowedOriginsFromEnv. rewrite filter_In, in_map_iff. split.
  - intros [(raw & Hx & Hraw) Hlen]. split.
    + intros ->. discriminate.
    + exists raw. split; [assumption | now symmetry].
  - intros [Hne (raw & Hraw & ->)]. split.
    + exists raw. split; [reflexivity | assumption].
    + destruct (trim raw); [congruence | reflexivity].
Qed.

(** ** Response headers *)



Lemma Part000_router_headers (c : constants) (w : world) (send : provider)
    (req : request) (res : response) :
  resHeaders (sent (Part000.router c w send req res)) = resHeaders res.
Proof.
  unfold Part000.router, Part000.send_email_route, Part000.validateApiKey,
    Part000.send_email.
  repeat match goal with
         | |- context [if ?b then _ else _] => destruct b
         | |- context [match send ?r with _ => _ end] => destruct (send r)
         | |- context [match IndexJs.sent_log_line ?b with _ => _ end] =>
             destruct (IndexJs.sent_log_line b)
         | |- context [match Part001.sent_log_line ?b with _ => _ end] =>
             destruct (Part001.sent_log_line b)
         | |- context [match Part000.sent_log_line ?b with _ => _ end] =>
             destruct (Part000.sent_log_line b)
         end; reflexivity.
Qed.




(** ** The configured secret *)

Lemma env_or_nonempty (x : option string) (fallback : string) :
  fallback <> "" -> env_or x fallback <> "".
Proof.
  intros Hf. unfold env_or. destruct x as [s |]; [| assumption].
  destruct (String.eqb_spec s ""); assumption.
Qed.

(** The fallback of [process.env.API_SECRET_KEY || ...] keeps the configured
    secret from being the empty string. *)
Lemma configured_secret_nonempty (env : process_env) :
  API_SECRET_KEY (IndexJs.load env) <> ""
  /\ API_SECRET_KEY (Part000.load env) <> ""
  /\ API_SECRET_KEY (Part001.load env) <> "".
Proof.
  repeat split; apply env_or_nonempty; discriminate.
Qed.

(** The validation tests truthiness: an empty array of recipients is truthy
    and passes it. *)
Remark empty_recipient_list_validated (subject html : string) :
  subject <> "" -> html <> "" ->
  validated (VObj [("to", VArr []); ("subject", VStr subject); ("html", VStr html)]).
Proof.
  intros Hs Hh. apply String.eqb_neq in Hs, Hh.
  unfold validated. simpl. rewrite Hs, Hh. repeat split.
Qed.

End ProgramFacts.


(* ===================================================================== *)
(** * Facts about the rest of the request handling *)
(* ===================================================================== *)

Module CoverageFacts.
Import JS Express CorsPkg Observations Coverage JSFacts ProgramFacts.

(** ** The two checks, read backwards *)

Lemma validation_guard_false (b : value) :
  negb (truthy (prop b "to")) || negb (truthy (prop b "subject"))
  || negb (truthy (prop b "html")) = false ->
  validated b.
Proof.
  intros H. apply orb_false_elim in H. destruct H as [H H3].
  apply orb_false_elim in H. destruct H as [H1 H2].
  apply negb_false_iff in H1, H2, H3. now repeat split.
Qed.

Lemma key_checks_valid (c : constants) (req : request) :
  absent (header req "x-api-key") || differs (header req "x-api-key") (API_SECRET_KEY c)
  = false ->
  key_valid c req.
Proof.
  intros H. apply orb_false_elim in H. destruct H as [Ha Hd].
  unfold key_valid. destruct (header req "x-api-key") as [k |]; [| discriminate].
  simpl in Ha, Hd. apply negb_false_iff, String.eqb_eq in Hd. subst k.
  split; [reflexivity |]. now apply String.eqb_neq.
Qed.

Lemma method_matches_POST (m : string) :
  method_matches "POST" m = true <-> m = "POST".
Proof.
  unfold method_matches. simpl. rewrite orb_false_r. apply String.eqb_eq.
Qed.

Lemma send_email_route_test (req : request) :
  method_matches "POST" (method req) && path_matches "/send-email" (url req) = true ->
  method req = "POST".
Proof.
  intros H. apply andb_true_iff in H. destruct H as [Hm _].
  now apply method_matches_POST.
Qed.

(** ** Response headers *)

Lemma assoc_set_assoc_same (k v : string) (l : list (string * string)) :
  assoc k (set_assoc k v l) = Some v.
Proof.
  induction l as [| [k' v'] t IH]; simpl.
  - now rewrite String.eqb_refl.
  - destruct (k' =? k) eqn:E; simpl.
    + now rewrite String.eqb_refl.
    + now rewrite E.
Qed.

Lemma assoc_set_assoc_other (k k' v : string) (l : list (string * string)) :
  k <> k' -> assoc k' (set_assoc k v l) = assoc k' l.
Proof.
  intros Hne. induction l as [| [k0 v0] t IH]; simpl.
  - apply String.eqb_neq in Hne. now rewrite Hne.
  - destruct (k0 =? k) eqn:E; simpl.
    + apply String.eqb_eq in E. subst k0.
      apply String.eqb_neq in Hne. now rewrite Hne.
    + destruct (k0 =? k'); [reflexivity | assumption].
Qed.

Lemma getHeader_setHeader_same (res : response) (k v : string) :
  getHeader (setHeader res k v) k = Some v.
Proof. apply assoc_set_assoc_same. Qed.

Lemma getHeader_setHeader_other (res : response) (k k' v : string) :
  k <> k' -> getHeader (setHeader res k v) k' = getHeader res k'.
Proof. apply assoc_set_assoc_other. Qed.

Lemma getHeader_vary_other (res : response) (field k : string) :
  "Vary" <> k -> getHeader (vary res field) k = getHeader res k.
Proof.
  intros Hne. unfold vary.
  destruct (getHeader res "Vary"); now apply getHeader_setHeader_other.
Qed.

(** applyHeaders leaves alone every header it is not asked to set. *)
Lemma applyHeaders_other (hs : list pending) (res : response) (k : string) :
  "Vary" <> k ->
  Forall (fun h => fst h <> k) hs ->
  getHeader (applyHeaders hs res) k = getHeader res k.
Proof.
  intros Hv Hall. revert res.
  induction Hall as [| [k0 v0] t Hk Ht IH]; intros res; simpl; [reflexivity |].
  destruct (absent v0); [apply IH |].
  destruct (k0 =? "Vary").
  - rewrite IH. now apply getHeader_vary_other.
  - rewrite IH. now apply getHeader_setHeader_other.
Qed.

(** ** part_000: the three ways a request goes *)

Lemma Part000_app_let_through_preflight (c : constants) (w : world) (send : provider)
    (req : request) :
  origin_let_through c w req ->
  (method req =? "OPTIONS") = true ->
  Part000.app c w send req = reply (preflight_response c w req).
Proof.
  intros Hpass Hm.
  unfold Part000.app, Part000.logging_middleware, corsMiddleware. simpl.
  unfold origin_let_through in Hpass. rewrite Hpass. simpl.
  unfold cors. rewrite Hm. reflexivity.
Qed.

Lemma Part000_app_trichotomy (c : constants) (w : world) (send : provider)
    (req : request) :
  (~ origin_let_through c w req
   /\ development w = false
   /\ exists message,
        Part000.app c w send req
        = reply (Part000.error_handler w (new_Error w message)
                   (setHeader fresh "X-Server-Timestamp" (now w))))
  \/ (origin_let_through c w req
      /\ method req = "OPTIONS"
      /\ Part000.app c w send req = reply (preflight_response c w req))
  \/ (origin_let_through c w req
      /\ method req <> "OPTIONS"
      /\ Part000.app c w send req
         = Part000.router c w send req (package_cors_headers c w req)).
Proof.
  destruct (absent (header req "origin")
            || includes (ALLOWED_ORIGINS c)
                 (Part000.cleanOrigin
                    (match header req "origin" with Some o => o | None => "" end))
            || development w) eqn:E.
  - assert (Hpass : origin_let_through c w req).
    { unfold origin_let_through, Part000.origin_function.
      destruct (absent (header req "origin")); [reflexivity |].
      destruct (includes _ _); [reflexivity |].
      simpl in E. now rewrite E. }
    right. destruct (String.eqb_spec (method req) "OPTIONS") as [Hm | Hm].
    + left. split; [assumption |]. split; [assumption |].
      apply Part000_app_let_through_preflight; [assumption |].
      now apply String.eqb_eq.
    + right. split; [assumption |]. split; [assumption |].
      apply Part000_app_let_through; [assumption |].
      now apply String.eqb_neq.
  - apply orb_false_elim in E. destruct E as [E Hdev].
    apply orb_false_elim in E. destruct E as [Ha Hi].
    assert (Herr : Part000.origin_function c w (header req "origin")
                   = (new_Error w ("Origin "
                                   ++ Part000.cleanOrigin
                                        (match header req "origin" with
                                         | Some o => o
                                         | None => ""
                                         end)
                                   ++ " not allowed by CORS policy"), VUndefined)).
    { unfold Part000.origin_function. now rewrite Ha, Hi, Hdev. }
    left. split; [| split; [assumption |]].
    + unfold origin_let_through. rewrite Herr. discriminate.
    + eexists. exact (Part000_app_origin_error c w send req _ Herr).
Qed.

(** ** The send-email route: when the provider is called *)

Lemma IndexJs_route_calls (c : constants) (send : provider) (req : request)
    (res : response) :
  provider_calls (IndexJs.send_email_route c send req res) = []
  \/ (provider_calls (IndexJs.send_email_route c send req res)
      = [IndexJs.sendEmailRequest (body req)]
      /\ key_valid c req /\ validated (body req)).
Proof.
  destruct (absent (header req "x-api-key")
            || differs (header req "x-api-key") (API_SECRET_KEY c)) eqn:E.
  - left. now rewrite IndexJs_route_rejects.
  - rewrite IndexJs_route_passes by assumption.
    destruct (negb (truthy (prop (body req) "to"))
              || negb (truthy (prop (body req) "subject"))
              || negb (truthy (prop (body req) "html"))) eqn:G.
    + left. unfold IndexJs.send_email. now rewrite G.
    + right. apply validation_guard_false in G. apply key_checks_valid in E.
      split; [now apply IndexJs_calls | now split].
Qed.

Lemma Part001_route_calls (c : constants) (send : provider) (req : request)
    (res : response) :
  provider_calls (Part001.send_email_route c send req res) = []
  \/ (provider_calls (Part001.send_email_route c send req res)
      = [Part001.msg (body req)]
      /\ key_valid c req /\ validated (body req)).
Proof.
  destruct (absent (header req "x-api-key")
            || differs (header req "x-api-key") (API_SECRET_KEY c)) eqn:E.
  - left. now rewrite Part001_route_rejects.
  - rewrite Part001_route_passes by assumption.
    destruct (negb (truthy (prop (body req) "to"))
              || negb (truthy (prop (body req) "subject"))
              || negb (truthy (prop (body req) "html"))) eqn:G.
    + left. unfold Part001.send_email. now rewrite G.
    + right. apply validation_guard_false in G. apply key_checks_valid in E.
      split; [now apply Part001_calls | now split].
Qed.

Lemma Part000_route_calls (c : constants) (w : world) (send : provider)
    (req : request) (res : response) :
  provider_calls (Part000.send_email_route c w send req res) = []
  \/ (provider_calls (Part000.send_email_route c w send req res)
      = [Part000.sendEmailRequest (body req)]
      /\ key_valid c req /\ validated (body req)).
Proof.
  destruct (absent (header req "x-api-key")
            || differs (header req "x-api-key") (API_SECRET_KEY c)) eqn:E.
  - left. now rewrite Part000_route_rejects.
  - rewrite Part000_route_passes by assumption.
    destruct (negb (truthy (prop (body req) "to"))
              || negb (truthy (prop (body req) "subject"))
              || negb (truthy (prop (body req) "html"))) eqn:G.
    + left. unfold Part000.send_email. now rewrite G.
    + right. apply validation_guard_false in G. apply key_checks_valid in E.
      split; [now apply Part000_calls | now split].
Qed.

(** ** The log line after the send *)

Lemma IndexJs_log_line_written (b : value) :
  loggable b -> exists line, IndexJs.sent_log_line b = Some line.
Proof.
  intros (H1 & H2 & H3). unfold IndexJs.sent_log_line, template.
  rewrite H1, H2, H3. eauto.
Qed.

Lemma IndexJs_log_line_throws (b : value) :
  ~ loggable b -> IndexJs.sent_log_line b = None.
Proof.
  unfold loggable, IndexJs.sent_log_line, template. intros H.
  destruct (printable (prop b "subject")), (printable (prop b "to")),
    (printable (or_else (prop b "emailType") (VStr "general")));
    try reflexivity.
  exfalso. apply H. repeat split.
Qed.

Lemma Part001_log_line_written (b : value) :
  loggable b -> exists line, Part001.sent_log_line b = Some line.
Proof.
  intros (H1 & H2 & H3). unfold Part001.sent_log_line, template.
  rewrite H1, H2, H3. eauto.
Qed.

Lemma Part001_log_line_throws (b : value) :
  ~ loggable b -> Part001.sent_log_line b = None.
Proof.
  unfold loggable, Part001.sent_log_line, template. intros H.
  destruct (printable (prop b "subject")), (printable (prop b "to")),
    (printable (or_else (prop b "emailType") (VStr "general")));
    try reflexivity.
  exfalso. apply H. repeat split.
Qed.

Lemma Part000_log_line_written (b : value) :
  loggable b -> exists line, Part000.sent_log_line b = Some line.
Proof.
  intros (H1 & H2 & H3). unfold Part000.sent_log_line, template.
  rewrite H1, H2, H3. eauto.
Qed.

Lemma Part000_log_line_throws (b : value) :
  ~ loggable b -> Part000.sent_log_line b = None.
Proof.
  unfold loggable, Part000.sent_log_line, template. intros H.
  destruct (printable (prop b "subject")), (printable (prop b "to")),
    (printable (or_else (prop b "emailType") (VStr "general")));
    try reflexivity.
  exfalso. apply H. repeat split.
Qed.

(** ** The application: when the provider is called *)

Lemma IndexJs_app_calls (c : constants) (w : world) (send : provider) (req : request) :
  provider_calls (IndexJs.app c w send req) = []
  \/ (provider_calls (IndexJs.app c w send req) = [IndexJs.sendEmailRequest (body req)]
      /\ method req = "POST" /\ key_valid c req /\ validated (body req)).
Proof.
  rewrite IndexJs_app_unfold. unfold IndexJs.router.
  destruct (method req =? "OPTIONS"); [now left |].
  destruct (method_matches "POST" (method req) && path_matches "/send-email" (url req))
    eqn:Hp.
  - apply send_email_route_test in Hp.
    destruct (IndexJs_route_calls c send req (custom_cors_headers c req))
      as [H | (H & Hk & Hv)]; [now left | right; tauto].
  - destruct (method_matches "GET" (method req) && path_matches "/health" (url req));
      now left.
Qed.

Lemma Part001_app_calls (c : constants) (w : world) (send : provider) (req : request) :
  provider_calls (Part001.app c w send req) = []
  \/ (provider_calls (Part001.app c w send req) = [Part001.msg (body req)]
      /\ method req = "POST" /\ key_valid c req /\ validated (body req)).
Proof.
  rewrite Part001_app_unfold. unfold Part001.router.
  destruct (method req =? "OPTIONS"); [now left |].
  destruct (method_matches "POST" (method req) && path_matches "/send-email" (url req))
    eqn:Hp.
  - apply send_email_route_test in Hp.
    destruct (Part001_route_calls c send req (custom_cors_headers c req))
      as [H | (H & Hk & Hv)]; [now left | right; tauto].
  - destruct (method_matches "GET" (method req) && path_matches "/health" (url req));
      now left.
Qed.

Lemma Part000_app_calls (c : constants) (w : world) (send : provider) (req : request) :
  provider_calls (Part000.app c w send req) = []
  \/ (provider_calls (Part000.app c w send req) = [Part000.sendEmailRequest (body req)]
      /\ method req = "POST" /\ key_valid c req /\ validated (body req)
      /\ origin_let_through c w req).
Proof.
  destruct (Part000_app_trichotomy c w send req)
    as [(_ & _ & m & H) | [(_ & _ & H) | (Hpass & _ & H)]];
    rewrite H; [now left | now left |].
  unfold Part000.router.
  destruct (method_matches "GET" (method req) && path_matches "/cors-test" (url req));
    [now left |].
  destruct (method_matches "GET" (method req) && path_matches "/health" (url req));
    [now left |].
  destruct (method_matches "POST" (method req) && path_matches "/send-email" (url req))
    eqn:Hp; [| now left].
  apply send_email_route_test in Hp.
  destruct (Part000_route_calls c w send req (package_cors_headers c w req))
    as [H' | (H' & Hk & Hv)]; [now left | right; tauto].
Qed.

(** ** part_000: what its responses carry *)

Lemma Part000_router_no_stack (c : constants) (w : world) (send : provider)
    (req : request) (res : response) :
  development w = false ->
  prop (body_of (sent (Part000.router c w send req res))) "stack" = VUndefined.
Proof.
  intros Hdev.
  unfold Part000.router, Part000.send_email_route, Part000.validateApiKey,
    Part000.send_email.
  rewrite Hdev.
  repeat match goal with
         | |- context [if ?b then _ else _] => destruct b
         | |- context [match send ?r with _ => _ end] => destruct (send r)
         | |- context [match IndexJs.sent_log_line ?b with _ => _ end] =>
             destruct (IndexJs.sent_log_line b)
         | |- context [match Part001.sent_log_line ?b with _ => _ end] =>
             destruct (Part001.sent_log_line b)
         | |- context [match Part000.sent_log_line ?b with _ => _ end] =>
             destruct (Part000.sent_log_line b)
         end; reflexivity.
Qed.

Lemma package_cors_headers_timestamp (c : constants) (w : world) (req : request) :
  getHeader (package_cors_headers c w req) "X-Server-Timestamp" = Some (now w).
Proof.
  unfold package_cors_headers.
  rewrite applyHeaders_other.
  - apply getHeader_setHeader_same.
  - discriminate.
  - unfold configureOrigin. simpl. repeat constructor; discriminate.
Qed.

Lemma preflight_response_timestamp (c : constants) (w : world) (req : request) :
  getHeader (preflight_response c w req) "X-Server-Timestamp" = Some (now w).
Proof.
  unfold preflight_response.
  change (getHeader
            (setHeader
               (applyHeaders
                  (configureOrigin (VBool true) req
                   ++ configureCredentials (Part000.corsOptions c w)
                   ++ configureMethods (Part000.corsOptions c w)
                   ++ configureAllowedHeaders (Part000.corsOptions c w) req)
                  (setHeader fresh "X-Server-Timestamp" (now w)))
               "Content-Length" "0") "X-Server-Timestamp" = Some (now w)).
  rewrite getHeader_setHeader_other by discriminate.
  rewrite applyHeaders_other.
  - apply getHeader_setHeader_same.
  - discriminate.
  - unfold configureOrigin. simpl. repeat constructor; discriminate.
Qed.

(** ** The origin with its trailing slash *)





(** ** The duplicate filter, structurally *)

Lemma includes_cons (x y : string) (l : list string) :
  includes (x :: l) y = (y =? x) || includes l y.
Proof. reflexivity. Qed.

Lemma includes_app (a b : list string) (y : string) :
  includes (a ++ b) y = includes a y || includes b y.
Proof. unfold includes. apply existsb_app. Qed.

Lemma fresh_elements_ext (l s1 s2 : list string) :
  (forall y, includes s1 y = includes s2 y) ->
  fresh_elements s1 l = fresh_elements s2 l.
Proof.
  revert s1 s2. induction l as [| x t IH]; intros s1 s2 H; simpl; [reflexivity |].
  rewrite <- (H x). destruct (includes s1 x).
  - now apply IH.
  - f_equal. apply IH. intros y. rewrite !includes_cons. now rewrite H.
Qed.

Lemma filter_from_fresh (self suf pre : list string) :
  self = (pre ++ suf)%list ->
  filter_from (fun v i => (indexOf self v =? Z.of_nat i)%Z) suf (List.length pre)
  = fresh_elements pre suf.
Proof.
  revert pre. induction suf as [| x t IH]; intros pre Hself; simpl; [reflexivity |].
  assert (Hself' : self = ((pre ++ [x]) ++ t)%list) by (now rewrite <- app_assoc).
  specialize (IH (pre ++ [x])%list Hself').
  rewrite length_app in IH. simpl in IH. rewrite Nat.add_1_r in IH.
  rewrite Hself at 1. rewrite indexOf_first.
  destruct (includes pre x) eqn:E; simpl; rewrite IH.
  - apply fresh_elements_ext. intros y. rewrite includes_app, includes_cons. simpl.
    rewrite orb_false_r.
    destruct (String.eqb_spec y x) as [-> | _]; [now rewrite E | apply orb_false_r].
  - f_equal. apply fresh_elements_ext. intros y.
    rewrite includes_app, !includes_cons. simpl. rewrite orb_false_r. apply orb_comm.
Qed.

Lemma remove_duplicates_fresh (l : list string) :
  Part000.remove_duplicates l = fresh_elements [] l.
Proof.
  unfold Part000.remove_duplicates, filter_indexed.
  exact (filter_from_fresh l l [] eq_refl).
Qed.

Lemma fresh_elements_app (l1 l2 seen seen' : list string) :
  (forall y, includes seen' y = includes seen y || includes l1 y) ->
  fresh_elements seen (l1 ++ l2) = (fresh_elements seen l1 ++ fresh_elements seen' l2)%list.
Proof.
  revert seen. induction l1 as [| x t IH]; intros seen H; simpl.
  - apply fresh_elements_ext. intros y. rewrite H. simpl. now rewrite orb_false_r.
  - destruct (includes seen x) eqn:E.
    + apply IH. intros y. rewrite H, includes_cons.
      destruct (String.eqb_spec y x) as [-> | _]; [now rewrite E | reflexivity].
    + simpl. f_equal. apply IH. intros y. rewrite H, !includes_cons.
      destruct (y =? x), (includes seen y); reflexivity.
Qed.

Lemma fresh_elements_filter (l seen seen' A : list string) :
  (forall y, includes seen' y = includes seen y || includes A y) ->
  fresh_elements seen' l
  = filter (fun x => negb (includes A x)) (fresh_elements seen l).
Proof.
  revert seen seen'. induction l as [| x t IH]; intros seen seen' H; simpl;
    [reflexivity |].
  rewrite (H x). destruct (includes seen x) eqn:E; simpl.
  - now apply IH.
  - destruct (includes A x) eqn:EA; simpl.
    + apply IH. intros y. rewrite H, includes_cons.
      destruct (String.eqb_spec y x) as [-> | _]; [now rewrite EA, orb_true_r |].
      reflexivity.
    + f_equal. apply IH. intros y. rewrite !includes_cons, H.
      now rewrite orb_assoc.
Qed.

Lemma fresh_elements_NoDup (l seen : list string) :
  NoDup l ->
  (forall x, In x l -> includes seen x = false) ->
  fresh_elements seen l = l.
Proof.
  intros Hnd. revert seen. induction Hnd as [| x t Hx Hnd IH]; intros seen H; simpl;
    [reflexivity |].
  rewrite (H x) by (now left). f_equal. apply IH.
  intros y Hy. rewrite includes_cons, (H y) by (now right).
  destruct (String.eqb_spec y x) as [-> | _]; [contradiction | reflexivity].
Qed.

(** The duplicate filter on a concatenation. *)
Lemma remove_duplicates_app (l1 l2 : list string) :
  Part000.remove_duplicates (l1 ++ l2)
  = (Part000.remove_duplicates l1
     ++ filter (fun x => negb (includes l1 x)) (Part000.remove_duplicates l2))%list.
Proof.
  rewrite !remove_duplicates_fresh.
  rewrite (fresh_elements_app l1 l2 [] l1) by reflexivity.
  f_equal. apply fresh_elements_filter. reflexivity.
Qed.

Lemma remove_duplicates_id (l : list string) :
  NoDup l -> Part000.remove_duplicates l = l.
Proof.
  intros H. rewrite remove_duplicates_fresh. now apply fresh_elements_NoDup.
Qed.

(** ** Reading ALLOWED_ORIGINS back *)

Lemma split_comma_free (a : string) :
  comma_free a = true -> split comma a = [a].
Proof.
  induction a as [| ch t IH]; simpl; [reflexivity |].
  intros H. apply andb_true_iff in H. destruct H as [Hc Ht].
  apply negb_true_iff in Hc. rewrite Hc, (IH Ht). reflexivity.
Qed.

Lemma split_at_comma (a b : string) :
  comma_free a = true -> split comma (a ++ String comma b) = a :: split comma b.
Proof.
  induction a as [| ch t IH]; simpl; [reflexivity |].
  intros H. apply andb_true_iff in H. destruct H as [Hc Ht].
  apply negb_true_iff in Hc. rewrite Hc, (IH Ht). reflexivity.
Qed.

(** trim gives back a plain entry, also when one space stands before it. *)
Lemma trim_plain_entry (sp x : string) :
  sp = "" \/ sp = " " -> plain_entry x -> trim (sp ++ x) = x.
Proof.
  intros [-> | ->] (_ & _ & Ht); [exact Ht |].
  unfold trim in *. cbn [append trimStart]. simpl is_whitespace. exact Ht.
Qed.

Lemma comma_free_space (sp x : string) :
  sp = "" \/ sp = " " -> comma_free x = true -> comma_free (sp ++ x) = true.
Proof. intros [-> | ->] H; simpl; assumption. Qed.

(** Entries written one after the other, separated by a comma or by a comma
    and a space, are read back as they were. *)
Lemma read_back_entries (sp : string) (l : list string) (lead : string) :
  sp = "" \/ sp = " " ->
  lead = "" \/ lead = " " ->
  l <> [] ->
  Forall plain_entry l ->
  map (fun origin => trim origin) (split comma (lead ++ join (String comma sp) l)) = l.
Proof.
  intros Hsp Hlead Hne Hall. revert lead Hlead.
  induction Hall as [| x t Hx Ht IH]; intros lead Hlead; [congruence |].
  destruct t as [| y t'].
  - simpl. rewrite split_comma_free.
    + simpl. now rewrite trim_plain_entry.
    + apply comma_free_space; [assumption | apply Hx].
  - change (join (String comma sp) (x :: y :: t'))
      with (x ++ String comma sp ++ join (String comma sp) (y :: t')).
    replace (lead ++ x ++ String comma sp ++ join (String comma sp) (y :: t'))
      with ((lead ++ x) ++ String comma (sp ++ join (String comma sp) (y :: t'))).
    + rewrite split_at_comma by (apply comma_free_space; [assumption | apply Hx]).
      simpl map. rewrite trim_plain_entry by assumption.
      f_equal. apply IH; [discriminate | assumption].
    + destruct Hlead as [-> | ->]; simpl; clear; induction x as [| ch x IHx];
        simpl; try reflexivity; try (now rewrite IHx);
        try (injection IHx as IHx; now rewrite IHx).
Qed.

Lemma filter_nonempty_plain (l : list string) :
  Forall plain_entry l ->
  filter (fun origin => (0 <? String.length origin)%nat) l = l.
Proof.
  induction 1 as [| x t Hx Ht IH]; simpl; [reflexivity |].
  destruct x as [| ch x']; [now destruct Hx |]. simpl. now rewrite IH.
Qed.

Lemma filter_all (f : string -> bool) (l : list string) :
  (forall x, In x l -> f x = true) -> filter f l = l.
Proof.
  induction l as [| x t IH]; intros H; simpl; [reflexivity |].
  rewrite (H x) by (now left). f_equal. apply IH. intros y Hy. apply H. now right.
Qed.


End CoverageFacts.


(* ===================================================================== *)
(** * The claims *)
(* ===================================================================== *)

Import JS Express CorsPkg Observations Samples JSFacts ProgramFacts.

(** C1, as stated, fails on every variant: an empty array is an empty value
    for the field to, yet it passes the validation ([!to] is false for an
    array); the request is answered 200 and the provider is called. *)
Lemma C1_counterexample :
  let req := post [("x-api-key", "your-secret-key-here")] Coverage.body_empty_recipients in
  let o := IndexJs.serve (IndexJs.load env_default) production provider_ok (accepted req) in
  prop (body req) "to" = VArr []
  /\ statusCode (sent o) = 200%Z
  /\ prop (body_of (sent o)) "success" = VBool true
  /\ provider_calls o = [IndexJs.sendEmailRequest (body req)].
Proof.
  repeat split; reflexivity.
Qed.

(** C1, amended.  A POST /send-email request whose body lacks one of the
    fields to, subject, html, or holds null, the empty string, 0 or false
    for it: the handler of every variant answers HTTP 400 with success=false
    and the descriptive error, and the provider is not invoked.  The whole
    application never invokes the provider for such a request, and answers
    400 once the request has come as far as the handler (past the route,
    the key check and, in part_000, the cors origin function).  Any
    other value counts as present, an empty array or object and a string of
    blanks included: with all three fields present the handler calls the
    provider. *)
Theorem C1_missing_fields_rejected :
  forall (c : constants) (w : world) (send : provider) (req : request) (res : response),
    (lacks_required_field (body req) ->
     rejected_400 (IndexJs.send_email send req res)
     /\ rejected_400 (Part000.send_email w send req res)
     /\ rejected_400 (Part001.send_email send req res)
     /\ provider_calls (IndexJs.serve c w send (accepted req)) = []
     /\ provider_calls (Part000.serve c w send (accepted req)) = []
     /\ provider_calls (Part001.serve c w send (accepted req)) = []
     /\ (routed_to_send_email req -> key_valid c req ->
         rejected_400 (IndexJs.serve c w send (accepted req))
         /\ rejected_400 (Part001.serve c w send (accepted req))
         /\ (origin_let_through c w req ->
             rejected_400 (Part000.serve c w send (accepted req)))))
    /\ (~ lacks_required_field (body req) ->
        provider_calls (IndexJs.send_email send req res)
        = [IndexJs.sendEmailRequest (body req)]
        /\ provider_calls (Part000.send_email w send req res)
           = [Part000.sendEmailRequest (body req)]
        /\ provider_calls (Part001.send_email send req res) = [Part001.msg (body req)]).
Proof.
  intros c w send req res. split.
  - intros H.
    rewrite IndexJs_serve_accepted, Part000_serve_accepted, Part001_serve_accepted.
    assert (H1 : forall r, rejected_400 (IndexJs.send_email send req r)).
    { intros r. rewrite IndexJs_send_email_lacks by assumption.
      repeat split; reflexivity. }
    assert (H0 : forall r, rejected_400 (Part000.send_email w send req r)).
    { intros r. rewrite Part000_send_email_lacks by assumption.
      repeat split; reflexivity. }
    assert (H2 : forall r, rejected_400 (Part001.send_email send req r)).
    { intros r. rewrite Part001_send_email_lacks by assumption.
      repeat split; reflexivity. }
    split; [apply H1 |]. split; [apply H0 |]. split; [apply H2 |].
    split; [| split; [| split]].
    + destruct (IndexJs_app_cases c w send req) as [[r Hr] | [r Hr]]; rewrite Hr.
      * reflexivity.
      * now apply IndexJs_route_lacks.
    + destruct (Part000_app_cases c w send req) as [[r Hr] | [r Hr]]; rewrite Hr.
      * reflexivity.
      * now apply Part000_route_lacks.
    + destruct (Part001_app_cases c w send req) as [[r Hr] | [r Hr]]; rewrite Hr.
      * reflexivity.
      * now apply Part001_route_lacks.
    + intros Hpost Hkey.
      destruct (key_valid_checks c req Hkey) as [Ha Hd].
      assert (Hpass : absent (header req "x-api-key")
                      || differs (header req "x-api-key") (API_SECRET_KEY c) = false)
        by (now rewrite Ha, Hd).
      split; [| split].
      * rewrite IndexJs_app_routed, IndexJs_route_passes by assumption. apply H1.
      * rewrite Part001_app_routed, Part001_route_passes by assumption. apply H2.
      * intros Ho. rewrite Part000_app_routed, Part000_route_passes by assumption.
        apply H0.
  - intros H. apply validated_iff_not_lacks in H.
    split; [| split].
    + now apply IndexJs_calls.
    + now apply Part000_calls.
    + now apply Part001_calls.
Qed.

(** C1 amended, at a request with an empty subject, sent in upper case and
    with a query string to part_000 with its default key and no Origin
    header; and at a request whose fields are all blank strings. *)
Lemma C1_witness :
  let req := {| method := "POST"; url := "/Send-Email/?debug=1";
                headers := [("x-api-key", "thiswillbesecretkey45")];
                body := body_no_subject |} in
  let blank := VObj [("to", VStr " "); ("subject", VStr " "); ("html", VStr " ")] in
  lacks_required_field body_no_subject
  /\ rejected_400 (IndexJs.send_email provider_ok req fresh)
  /\ rejected_400 (Part000.serve (Part000.load env_default) production provider_ok
                     (accepted req))
  /\ provider_calls (Part001.send_email provider_ok (post [] blank) fresh)
     = [Part001.msg blank].
Proof.
  intros req blank.
  assert (H : lacks_required_field body_no_subject).
  { right; left. right; right; left. reflexivity. }
  split; [exact H |].
  destruct (C1_missing_fields_rejected (Part000.load env_default) production provider_ok
              req fresh) as (Hlacks & _).
  destruct (Hlacks H) as (H1 & _ & _ & _ & _ & _ & Happ).
  split; [exact H1 |]. split.
  - apply Happ.
    + split; reflexivity.
    + split; [reflexivity | discriminate].
    + reflexivity.
  - destruct (C1_missing_fields_rejected (Part000.load env_default) production provider_ok
                (post [] blank) fresh) as (_ & Hpresent).
    apply Hpresent.
    intros [Hf | [Hf | Hf]];
      repeat (destruct Hf as [Hf | Hf]; try discriminate Hf); discriminate Hf.
Defined.

(** C2, as stated, fails on part_000: a POST /send-email without a key whose
    Origin is outside the allow-list does not reach the key check; the
    response is the 500 of the error handler, not 401. *)
Lemma C2_counterexample :
  let c := Part000.load env_default in
  let req := post [("origin", "https://evil.example")] body_single in
  let o := Part000.serve c production provider_ok (accepted req) in
  post_send_email req
  /\ key_absent_or_wrong c req
  /\ statusCode (sent o) = 500%Z
  /\ prop (body_of (sent o)) "error" = VStr "Internal Server Error".
Proof.
  repeat split; try reflexivity. now left.
Qed.

(** C2, amended.  For a POST /send-email request whose X-API-Key header is
    absent or is not the configured secret, the provider is never invoked,
    and the key check of every variant answers HTTP 401 with an
    unauthorized error.  For a request whose body bodyParser.json() takes,
    that 401 is the response of index.js and of part_001, and of part_000
    when the cors origin function lets the request through; otherwise
    part_000 answers with the 500 of its error handler.  A request whose
    body the parser rejects (JSON it cannot parse, a body over the limit)
    does not come to the key check in any variant, whatever its key:
    index.js and part_001 answer with the status the parser's error carries,
    part_000 with the 500 of its error handler; the provider is not invoked
    either. *)
Theorem C2_unauthorized_key_rejected :
  forall (c : constants) (w : world) (send : provider),
    (forall (req : request) (res : response),
        key_absent_or_wrong c req ->
        unauthorized (IndexJs.send_email_route c send req res)
        /\ unauthorized (Part000.send_email_route c w send req res)
        /\ unauthorized (Part001.send_email_route c send req res)
        /\ provider_calls (IndexJs.serve c w send (accepted req)) = []
        /\ provider_calls (Part000.serve c w send (accepted req)) = []
        /\ provider_calls (Part001.serve c w send (accepted req)) = []
        /\ (routed_to_send_email req ->
            unauthorized (IndexJs.serve c w send (accepted req))
            /\ unauthorized (Part001.serve c w send (accepted req))
            /\ (origin_let_through c w req ->
                unauthorized (Part000.serve c w send (accepted req)))
            /\ (~ origin_let_through c w req ->
                statusCode (sent (Part000.serve c w send (accepted req))) = 500%Z)))
    /\ (forall (i : incoming) (err : value),
           in_body i = BodyRejected err ->
           statusCode (sent (IndexJs.serve c w send i)) = error_status err
           /\ statusCode (sent (Part001.serve c w send i)) = error_status err
           /\ statusCode (sent (Part000.serve c w send i)) = 500%Z
           /\ provider_calls (IndexJs.serve c w send i) = []
           /\ provider_calls (Part000.serve c w send i) = []
           /\ provider_calls (Part001.serve c w send i) = []).
Proof.
  intros c w send. split.
  - intros req res H.
    rewrite IndexJs_serve_accepted, Part000_serve_accepted, Part001_serve_accepted.
    pose proof (key_absent_or_wrong_checks c req H) as Hbad.
    assert (H1 : forall r, unauthorized (IndexJs.send_email_route c send req r)).
    { intros r. rewrite IndexJs_route_rejects by assumption.
      right. repeat split; reflexivity. }
    assert (H0 : forall r, unauthorized (Part000.send_email_route c w send req r)).
    { intros r. rewrite Part000_route_rejects by assumption.
      destruct (absent (header req "x-api-key")); [left | right];
        repeat split; reflexivity. }
    assert (H2 : forall r, unauthorized (Part001.send_email_route c send req r)).
    { intros r. rewrite Part001_route_rejects by assumption.
      right. repeat split; reflexivity. }
    assert (Hnil : forall o, unauthorized o -> provider_calls o = []).
    { intros o [(_ & _ & Ho) | (_ & _ & Ho)]; exact Ho. }
    split; [apply H1 |]. split; [apply H0 |]. split; [apply H2 |].
    split; [| split; [| split]].
    + destruct (IndexJs_app_cases c w send req) as [[r Hr] | [r Hr]]; rewrite Hr.
      * reflexivity.
      * apply Hnil, H1.
    + destruct (Part000_app_cases c w send req) as [[r Hr] | [r Hr]]; rewrite Hr.
      * reflexivity.
      * apply Hnil, H0.
    + destruct (Part001_app_cases c w send req) as [[r Hr] | [r Hr]]; rewrite Hr.
      * reflexivity.
      * apply Hnil, H2.
    + intros Hpost. split; [| split; [| split]].
      * rewrite IndexJs_app_routed by assumption. apply H1.
      * rewrite Part001_app_routed by assumption. apply H2.
      * intros Ho. rewrite Part000_app_routed by assumption. apply H0.
      * intros Ho. now apply Part000_app_not_let_through.
  - intros i err Hi.
    destruct (serve_body_rejected c w send i err Hi) as (E1 & E2 & E0).
    rewrite E1, E2, E0. repeat split; reflexivity.
Qed.

(** C2 amended, at a request with a wrong key and one with no key, default
    configuration, and at a keyless request whose body is not JSON. *)
Lemma C2_witness :
  let malformed :=
    {| in_method := "POST"; in_url := "/send-email"; in_headers := [];
       in_body := BodyRejected (VObj [("status", VNum 400);
                                      ("message", VStr "Unexpected token")]) |} in
  key_absent_or_wrong (IndexJs.load env_default) (post [("x-api-key", "guess")] body_single)
  /\ unauthorized (IndexJs.serve (IndexJs.load env_default) production provider_ok
                     (accepted (post [("x-api-key", "guess")] body_single)))
  /\ unauthorized (Part000.serve (Part000.load env_default) production provider_ok
                     (accepted (post [] body_single)))
  /\ statusCode (sent (IndexJs.serve (IndexJs.load env_default) production provider_ok
                         malformed)) = 400%Z.
Proof.
  intros malformed.
  assert (H : key_absent_or_wrong (IndexJs.load env_default)
                (post [("x-api-key", "guess")] body_single)).
  { right. exists "guess". split; [reflexivity | discriminate]. }
  split; [exact H |]. split; [| split].
  - destruct (proj1 (C2_unauthorized_key_rejected (IndexJs.load env_default) production
                       provider_ok)
                (post [("x-api-key", "guess")] body_single) fresh H)
      as (_ & _ & _ & _ & _ & _ & Happ).
    exact (proj1 (Happ (conj eq_refl eq_refl))).
  - destruct (proj1 (C2_unauthorized_key_rejected (Part000.load env_default) production
                       provider_ok)
                (post [] body_single) fresh (or_introl eq_refl))
      as (_ & _ & _ & _ & _ & _ & Happ).
    exact (proj1 (proj2 (proj2 (Happ (conj eq_refl eq_refl)))) eq_refl).
  - exact (proj1 (proj2 (C2_unauthorized_key_rejected (IndexJs.load env_default)
                           production provider_ok) malformed _ eq_refl)).
Defined.

(** C10, as stated, fails on part_000: a POST /send-email with an empty key
    whose Origin is outside the allow-list does not reach the key check;
    the response is the 500 of the error handler, not 401. *)
Lemma C10_counterexample :
  let c := Part000.load env_default in
  let req := post [("x-api-key", ""); ("origin", "https://evil.example")] body_single in
  let o := Part000.serve c production provider_ok (accepted req) in
  post_send_email req
  /\ header req "x-api-key" = Some ""
  /\ statusCode (sent o) = 500%Z
  /\ prop (body_of (sent o)) "error" = VStr "Internal Server Error".
Proof.
  repeat split; reflexivity.
Qed.

(** C10, amended.  For a POST /send-email request whose X-API-Key header is
    the empty string no provider call occurs, and the key check of every
    variant answers HTTP 401 whatever the configured secret is: also when
    the secret is itself the empty string, so that the key equals the
    secret, because the falsiness check treats the empty key as absent.
    For a request whose body bodyParser.json() takes, that 401 is the
    response of index.js and of part_001, and of part_000 when the cors
    origin function lets the request through; otherwise part_000 answers
    with the 500 of its error handler.  A request whose body the parser
    rejects does not come to the key check in any variant: index.js and
    part_001 answer with the status the parser's error carries, part_000
    with the 500 of its error handler, without a provider call. *)
Theorem C10_empty_key_rejected :
  forall (c : constants) (w : world) (send : provider),
    (forall (req : request) (res : response),
        header req "x-api-key" = Some "" ->
        absent (header req "x-api-key") = true
        /\ (API_SECRET_KEY c = "" ->
            differs (header req "x-api-key") (API_SECRET_KEY c) = false)
        /\ rejected_401 "Unauthorized: Invalid API key"
             (IndexJs.send_email_route c send req res)
        /\ rejected_401 "Unauthorized: API key is required"
             (Part000.send_email_route c w send req res)
        /\ rejected_401 "Unauthorized: Invalid API key"
             (Part001.send_email_route c send req res)
        /\ provider_calls (IndexJs.serve c w send (accepted req)) = []
        /\ provider_calls (Part000.serve c w send (accepted req)) = []
        /\ provider_calls (Part001.serve c w send (accepted req)) = []
        /\ (routed_to_send_email req ->
            rejected_401 "Unauthorized: Invalid API key"
              (IndexJs.serve c w send (accepted req))
            /\ rejected_401 "Unauthorized: Invalid API key"
                 (Part001.serve c w send (accepted req))
            /\ (origin_let_through c w req ->
                rejected_401 "Unauthorized: API key is required"
                  (Part000.serve c w send (accepted req)))
            /\ (~ origin_let_through c w req ->
                statusCode (sent (Part000.serve c w send (accepted req))) = 500%Z)))
    /\ (forall (i : incoming) (err : value),
           assoc "x-api-key" (in_headers i) = Some "" ->
           in_body i = BodyRejected err ->
           statusCode (sent (IndexJs.serve c w send i)) = error_status err
           /\ statusCode (sent (Part001.serve c w send i)) = error_status err
           /\ statusCode (sent (Part000.serve c w send i)) = 500%Z
           /\ provider_calls (IndexJs.serve c w send i) = []
           /\ provider_calls (Part000.serve c w send i) = []
           /\ provider_calls (Part001.serve c w send i) = []).
Proof.
  intros c w send. split.
  - intros req res H.
    rewrite IndexJs_serve_accepted, Part000_serve_accepted, Part001_serve_accepted.
    assert (Ha : absent (header req "x-api-key") = true) by (now rewrite H).
    assert (Hbad : absent (header req "x-api-key")
                   || differs (header req "x-api-key") (API_SECRET_KEY c) = true)
      by (now rewrite Ha).
    assert (H1 : forall r, rejected_401 "Unauthorized: Invalid API key"
                             (IndexJs.send_email_route c send req r)).
    { intros r. rewrite IndexJs_route_rejects by assumption. repeat split; reflexivity. }
    assert (H0 : forall r, rejected_401 "Unauthorized: API key is required"
                             (Part000.send_email_route c w send req r)).
    { intros r. rewrite Part000_route_rejects by assumption. rewrite Ha.
      repeat split; reflexivity. }
    assert (H2 : forall r, rejected_401 "Unauthorized: Invalid API key"
                             (Part001.send_email_route c send req r)).
    { intros r. rewrite Part001_route_rejects by assumption. repeat split; reflexivity. }
    split; [exact Ha |].
    split; [intros Hs; rewrite H, Hs; reflexivity |].
    split; [apply H1 |]. split; [apply H0 |]. split; [apply H2 |].
    split; [| split; [| split]].
    + destruct (IndexJs_app_cases c w send req) as [[r Hr] | [r Hr]]; rewrite Hr.
      * reflexivity.
      * apply H1.
    + destruct (Part000_app_cases c w send req) as [[r Hr] | [r Hr]]; rewrite Hr.
      * reflexivity.
      * apply H0.
    + destruct (Part001_app_cases c w send req) as [[r Hr] | [r Hr]]; rewrite Hr.
      * reflexivity.
      * apply H2.
    + intros Hpost. split; [| split; [| split]].
      * rewrite IndexJs_app_routed by assumption. apply H1.
      * rewrite Part001_app_routed by assumption. apply H2.
      * intros Ho. rewrite Part000_app_routed by assumption. apply H0.
      * intros Ho. now apply Part000_app_not_let_through.
  - intros i err _ Hi.
    destruct (serve_body_rejected c w send i err Hi) as (E1 & E2 & E0).
    rewrite E1, E2, E0. repeat split; reflexivity.
Qed.

(** C10 amended, with the empty string as the secret: the empty key equals
    it and is rejected all the same; and at a request with the empty key
    whose body is over the limit. *)
Lemma C10_witness :
  let c := {| ALLOWED_ORIGINS := []; API_SECRET_KEY := "" |} in
  let req := post [("x-api-key", "")] body_single in
  let too_large :=
    {| in_method := "POST"; in_url := "/send-email"; in_headers := [("x-api-key", "")];
       in_body := BodyRejected (VObj [("status", VNum 413);
                                      ("message", VStr "request entity too large")]) |} in
  header req "x-api-key" = Some (API_SECRET_KEY c)
  /\ rejected_401 "Unauthorized: Invalid API key"
       (IndexJs.serve c production provider_ok (accepted req))
  /\ rejected_401 "Unauthorized: API key is required"
       (Part000.serve c production provider_ok (accepted req))
  /\ statusCode (sent (Part001.serve c production provider_ok too_large)) = 413%Z.
Proof.
  intros c req too_large.
  split; [reflexivity |].
  destruct (proj1 (C10_empty_key_rejected c production provider_ok) req fresh eq_refl)
    as (_ & _ & _ & _ & _ & _ & _ & _ & Happ).
  destruct (Happ (conj eq_refl eq_refl)) as (H1 & _ & H0 & _).
  split; [exact H1 |]. split; [apply H0; reflexivity |].
  exact (proj1 (proj2 (proj2 (C10_empty_key_rejected c production provider_ok)
                         too_large _ eq_refl eq_refl))).
Defined.

(** C5, as stated, fails on index.js: the request with no X-API-Key header
    and the request with a wrong key get the same error message. *)
Lemma C5_counterexample :
  header (post [] body_single) "x-api-key" = None
  /\ header (post [("x-api-key", "guess")] body_single) "x-api-key" = Some "guess"
  /\ "guess" <> API_SECRET_KEY (IndexJs.load env_default)
  /\ prop (body_of (sent (IndexJs.app (IndexJs.load env_default) production provider_ok
                            (post [] body_single)))) "error"
     = prop (body_of (sent (IndexJs.app (IndexJs.load env_default) production provider_ok
                              (post [("x-api-key", "guess")] body_single)))) "error".
Proof.
  repeat split; try reflexivity. discriminate.
Qed.

(** C5, amended.  In part_000 a request with no X-API-Key header is rejected
    with 401 and the message "Unauthorized: API key is required", which is
    distinct from the message "Unauthorized: Invalid API key" of a request
    whose key is present, not empty and not the secret.  In index.js and in
    part_001 both requests are rejected with 401 and the one message
    "Unauthorized: Invalid API key". *)
Theorem C5_missing_and_wrong_key_messages :
  forall (c : constants) (w : world) (send : provider) (res : response)
         (req_none req_wrong : request) (k : string),
    header req_none "x-api-key" = None ->
    header req_wrong "x-api-key" = Some k ->
    k <> "" ->
    k <> API_SECRET_KEY c ->
    (rejected_401 "Unauthorized: API key is required"
       (Part000.send_email_route c w send req_none res)
     /\ rejected_401 "Unauthorized: Invalid API key"
          (Part000.send_email_route c w send req_wrong res)
     /\ "Unauthorized: API key is required" <> "Unauthorized: Invalid API key")
    /\ (rejected_401 "Unauthorized: Invalid API key"
          (IndexJs.send_email_route c send req_none res)
        /\ rejected_401 "Unauthorized: Invalid API key"
             (IndexJs.send_email_route c send req_wrong res))
    /\ (rejected_401 "Unauthorized: Invalid API key"
          (Part001.send_email_route c send req_none res)
        /\ rejected_401 "Unauthorized: Invalid API key"
             (Part001.send_email_route c send req_wrong res)).
Proof.
  intros c w send res req_none req_wrong k Hnone Hwrong Hk Hne.
  assert (Bn : absent (header req_none "x-api-key")
               || differs (header req_none "x-api-key") (API_SECRET_KEY c) = true)
    by (apply key_absent_or_wrong_checks; now left).
  assert (Bw : absent (header req_wrong "x-api-key")
               || differs (header req_wrong "x-api-key") (API_SECRET_KEY c) = true)
    by (apply key_absent_or_wrong_checks; right; eauto).
  assert (An : absent (header req_none "x-api-key") = true) by (now rewrite Hnone).
  assert (Aw : absent (header req_wrong "x-api-key") = false).
  { rewrite Hwrong. simpl. now apply String.eqb_neq. }
  split; [| split].
  - split; [| split].
    + rewrite Part000_route_rejects, An by assumption. repeat split; reflexivity.
    + rewrite Part000_route_rejects, Aw by assumption. repeat split; reflexivity.
    + discriminate.
  - split; rewrite IndexJs_route_rejects by assumption; repeat split; reflexivity.
  - split; rewrite Part001_route_rejects by assumption; repeat split; reflexivity.
Qed.

(** C5 amended, at the default configuration of part_000. *)
Lemma C5_witness :
  rejected_401 "Unauthorized: API key is required"
    (Part000.send_email_route (Part000.load env_default) production provider_ok
       (post [] body_single) fresh)
  /\ rejected_401 "Unauthorized: Invalid API key"
       (Part000.send_email_route (Part000.load env_default) production provider_ok
          (post [("x-api-key", "guess")] body_single) fresh).
Proof.
  destruct (C5_missing_and_wrong_key_messages (Part000.load env_default) production
              provider_ok fresh (post [] body_single)
              (post [("x-api-key", "guess")] body_single) "guess")
    as ((H1 & H2 & _) & _); try reflexivity; try discriminate.
  split; assumption.
Defined.

(** C4, as stated, fails on index.js: a list of two addresses becomes one
    object that holds the whole list, not two objects. *)
Lemma C4_counterexample :
  validated body_list
  /\ prop body_list "to" = VArr [VStr "a@x.com"; VStr "b@x.com"]
  /\ map (fun r => prop r "to")
       (provider_calls (IndexJs.app (IndexJs.load env_default) production provider_ok
                          (post [("x-api-key", "your-secret-key-here")] body_list)))
     = [VArr [address (VArr [VStr "a@x.com"; VStr "b@x.com"])]]
  /\ VArr [address (VArr [VStr "a@x.com"; VStr "b@x.com"])]
     <> VArr [address (VStr "a@x.com"); address (VStr "b@x.com")].
Proof.
  split; [repeat split |]. split; [reflexivity |]. split; [reflexivity | discriminate].
Qed.

(** C4, amended.  For a request that passes validation, part_000 hands the
    provider one request whose recipient list is [{email: to}] when to is a
    single string, and the N objects {email: s}, in order, when to is a list
    of N strings.  index.js hands the provider one request whose recipient
    list is the single object {email: to}, whatever to is. *)
Theorem C4_recipients_normalized :
  forall (w : world) (send : provider) (req : request) (res : response),
    validated (body req) ->
    (provider_calls (Part000.send_email w send req res)
     = [Part000.sendEmailRequest (body req)]
     /\ (forall s, prop (body req) "to" = VStr s ->
         prop (Part000.sendEmailRequest (body req)) "to" = VArr [address (VStr s)])
     /\ (forall l, prop (body req) "to" = VArr l ->
         prop (Part000.sendEmailRequest (body req)) "to" = VArr (map address l)
         /\ List.length (map address l) = List.length l))
    /\ (provider_calls (IndexJs.send_email send req res)
        = [IndexJs.sendEmailRequest (body req)]
        /\ prop (IndexJs.sendEmailRequest (body req)) "to"
           = VArr [address (prop (body req) "to")]).
Proof.
  intros w send req res H. split; [split; [| split] | split].
  - now apply Part000_calls.
  - intros s Hs. unfold Part000.sendEmailRequest. simpl. now rewrite Hs.
  - intros l Hl. split; [| apply length_map].
    unfold Part000.sendEmailRequest. simpl. now rewrite Hl.
  - now apply IndexJs_calls.
  - reflexivity.
Qed.

(** C4 amended, at a list of two recipients on part_000. *)
Lemma C4_witness :
  validated body_list
  /\ prop (Part000.sendEmailRequest body_list) "to"
     = VArr [address (VStr "a@x.com"); address (VStr "b@x.com")].
Proof.
  assert (H : validated body_list) by (repeat split).
  split; [exact H |].
  destruct (C4_recipients_normalized production provider_ok
              (post [("x-api-key", "thiswillbesecretkey45")] body_list) fresh H)
    as ((_ & _ & Hl) & _).
  exact (proj1 (Hl _ eq_refl)).
Defined.

(** C7, as stated, fails on the Brevo variants: for a validated request
    without cc the request object handed to the provider does have a cc
    property (its value is undefined). *)
Lemma C7_counterexample :
  let req := post [("x-api-key", "your-secret-key-here")] body_single in
  validated (body req)
  /\ prop (body req) "cc" = VUndefined
  /\ provider_calls (IndexJs.send_email provider_ok req fresh)
     = [IndexJs.sendEmailRequest (body req)]
  /\ has_own (IndexJs.sendEmailRequest (body req)) "cc" = true
  /\ has_own (Part000.sendEmailRequest (body req)) "cc" = true.
Proof.
  repeat split; reflexivity.
Qed.

(** C7, amended.  For a request that passes validation, every variant hands
    the provider one request.  When the request's cc is absent, not an
    array, or an empty array, the SendGrid message has no cc property; the
    request object of the Brevo variants has a cc property all the same,
    whose value is undefined, so that the serialized request has no cc key.
    When cc is a non-empty array of N addresses the provider request
    carries exactly those N addresses in order: as N address objects for
    the Brevo variants, as the array itself for SendGrid. *)
Theorem C7_cc_forwarding :
  forall (w : world) (send : provider) (req : request) (res : response),
    validated (body req) ->
    let cc := prop (body req) "cc" in
    let brevo := IndexJs.sendEmailRequest (body req) in
    let brevo0 := Part000.sendEmailRequest (body req) in
    let sendgrid := Part001.msg (body req) in
    (provider_calls (IndexJs.send_email send req res) = [brevo]
     /\ provider_calls (Part000.send_email w send req res) = [brevo0]
     /\ provider_calls (Part001.send_email send req res) = [sendgrid])
    /\ (cc = VUndefined \/ isArray cc = false \/ cc = VArr [] ->
        (has_own brevo "cc" = true
         /\ prop brevo "cc" = VUndefined
         /\ JSON_stringify brevo = JSON_stringify (without "cc" brevo))
        /\ (has_own brevo0 "cc" = true
            /\ prop brevo0 "cc" = VUndefined
            /\ JSON_stringify brevo0 = JSON_stringify (without "cc" brevo0))
        /\ (has_own sendgrid "cc" = false /\ prop sendgrid "cc" = VUndefined))
    /\ (forall l, cc = VArr l -> l <> [] ->
        prop brevo "cc" = VArr (map address l)
        /\ prop brevo0 "cc" = VArr (map address l)
        /\ prop sendgrid "cc" = VArr l
        /\ List.length (map address l) = List.length l).
Proof.
  intros w send req res H cc brevo brevo0 sendgrid.
  split; [split; [| split] | split].
  - now apply IndexJs_calls.
  - now apply Part000_calls.
  - now apply Part001_calls.
  - intros Hcc. apply cc_guard_off in Hcc. fold cc in Hcc.
    subst brevo brevo0 sendgrid.
    unfold IndexJs.sendEmailRequest, Part000.sendEmailRequest, Part001.msg,
      IndexJs.ccRecipients, Part000.ccRecipients.
    fold cc. rewrite Hcc. repeat split; reflexivity.
  - intros l Hl Hne.
    pose proof (cc_guard_on l Hne) as Hon. rewrite <- Hl in Hon.
    subst brevo brevo0 sendgrid.
    unfold IndexJs.sendEmailRequest, Part000.sendEmailRequest, Part001.msg,
      IndexJs.ccRecipients, Part000.ccRecipients.
    fold cc. rewrite Hon. rewrite Hl. simpl elements.
    pose proof (map_nonempty (fun ccEmail => VObj [("email", ccEmail)]) l Hne) as Hm.
    repeat split; try apply length_map; simpl; rewrite ?Hm; reflexivity.
Qed.

(** C7 at a request with one cc address and at one without cc. *)
Lemma C7_witness :
  validated body_list
  /\ prop (IndexJs.sendEmailRequest body_list) "cc" = VArr [address (VStr "c@x.com")]
  /\ prop (Part001.msg body_list) "cc" = VArr [VStr "c@x.com"]
  /\ prop (Part000.sendEmailRequest body_single) "cc" = VUndefined.
Proof.
  assert (H : validated body_list) by (repeat split).
  assert (H' : validated body_single) by (repeat split).
  split; [exact H |].
  destruct (C7_cc_forwarding production provider_ok
              (post [("x-api-key", "thiswillbesecretkey45")] body_list) fresh H)
    as (_ & _ & Hon).
  destruct (Hon [VStr "c@x.com"] eq_refl) as (H1 & _ & H2 & _); [discriminate |].
  destruct (C7_cc_forwarding production provider_ok
              (post [("x-api-key", "thiswillbesecretkey45")] body_single) fresh H')
    as (_ & Hoff & _).
  destruct (Hoff (or_introl eq_refl)) as (_ & (_ & H3 & _) & _).
  split; [exact H1 |]. split; [exact H2 | exact H3].
Defined.




(** C9, as stated, fails: part_000 trims white space from the supplied
    values but keeps their trailing slash, and index.js (like part_001)
    takes the supplied values as they are, white space included, without
    the base list. *)
Lemma C9_counterexample :
  env_ALLOWED_ORIGINS env_extra_origin = Some " https://a.example/ , http://localhost:3000"
  /\ ALLOWED_ORIGINS (Part000.load env_extra_origin)
     = ["https://kenyaonabudgetsafaris.co.uk";
        "https://www.kenyaonabudgetsafaris.co.uk";
        "http://127.0.0.1:5500";
        "http://localhost:5500";
        "http://localhost:3000";
        "https://a.example/"]
  /\ endsWith "https://a.example/" "/" = true
  /\ ALLOWED_ORIGINS (IndexJs.load env_extra_origin)
     = [" https://a.example/ "; " http://localhost:3000"]
  /\ ALLOWED_ORIGINS (Part001.load env_extra_origin)
     = [" https://a.example/ "; " http://localhost:3000"].
Proof.
  repeat split; reflexivity.
Qed.

(** C9, amended.  In part_000 the allow-list is computed once, from the
    environment, by merging the fixed base list with the supplied
    comma-separated values, each trimmed of surrounding white space (a
    trailing slash is kept) and dropped when empty, with duplicates removed;
    membership is tested by exact string equality against that list.  In
    index.js and part_001 the allow-list is the supplied comma-separated
    values as they are, or the single default origin when none is supplied. *)
Theorem C9_allowed_origins :
  forall env : process_env,
    let supplied := split comma (env_or (env_ALLOWED_ORIGINS env) "") in
    let allowed := ALLOWED_ORIGINS (Part000.load env) in
    NoDup allowed
    /\ (forall x, In x allowed <->
                  In x Part000.base_origins
                  \/ (x <> "" /\ exists raw, In raw supplied /\ x = trim raw))
    /\ (forall x, In x allowed ->
                  starts_with_whitespace x = false /\ ends_with_whitespace x = false)
    /\ (forall o, includes allowed o = true <-> In o allowed)
    /\ ALLOWED_ORIGINS (IndexJs.load env)
       = split comma (env_or (env_ALLOWED_ORIGINS env)
                        "https://kenyaonabudgetsafaris.co.uk")
    /\ ALLOWED_ORIGINS (Part001.load env)
       = split comma (env_or (env_ALLOWED_ORIGINS env)
                        "https://kenyaonabudgetsafaris.co.uk").
Proof.
  intros env supplied allowed.
  assert (Hin : forall x, In x allowed <->
                  In x Part000.base_origins
                  \/ (x <> "" /\ exists raw, In raw supplied /\ x = trim raw)).
  { intros x. unfold allowed, Part000.load. cbn [ALLOWED_ORIGINS].
    rewrite remove_duplicates_In, in_app_iff, allowedOriginsFromEnv_In.
    reflexivity. }
  split; [unfold allowed, Part000.load; cbn [ALLOWED_ORIGINS];
          apply remove_duplicates_NoDup |].
  split; [exact Hin |].
  split; [| split; [intros o; apply includes_In | split; reflexivity]].
  intros x Hx. apply Hin in Hx. destruct Hx as [Hb | (_ & raw & _ & ->)].
  - simpl in Hb.
    repeat (destruct Hb as [<- | Hb]; [split; reflexivity |]). contradiction.
  - apply trim_trimmed.
Qed.








(* ===================================================================== *)
(** * Further properties of the programs *)
(* ===================================================================== *)

Import Coverage CoverageFacts.

(** X1.  Whatever comes in, each variant calls the provider at most once,
    and only for a POST whose body the parser took, that carries the
    configured (non-empty) secret and whose body passes validation; the one
    call then is the request built from that body.  In part_000 the request
    must also have been let through by the cors origin function. *)
Theorem X1_provider_called_only_when_authorized :
  forall (c : constants) (w : world) (send : provider) (i : incoming),
    (provider_calls (IndexJs.serve c w send i) = []
     \/ exists b,
          in_body i = BodyParsed b
          /\ provider_calls (IndexJs.serve c w send i) = [IndexJs.sendEmailRequest b]
          /\ in_method i = "POST" /\ key_valid c (with_body i b) /\ validated b)
    /\ (provider_calls (Part000.serve c w send i) = []
        \/ exists b,
             in_body i = BodyParsed b
             /\ provider_calls (Part000.serve c w send i) = [Part000.sendEmailRequest b]
             /\ in_method i = "POST" /\ key_valid c (with_body i b) /\ validated b
             /\ origin_let_through c w (with_body i b))
    /\ (provider_calls (Part001.serve c w send i) = []
        \/ exists b,
             in_body i = BodyParsed b
             /\ provider_calls (Part001.serve c w send i) = [Part001.msg b]
             /\ in_method i = "POST" /\ key_valid c (with_body i b) /\ validated b).
Proof.
  intros c w send i.
  destruct (in_body i) as [b | err] eqn:Hi.
  - unfold IndexJs.serve, Part000.serve, Part001.serve. rewrite Hi.
    split; [| split].
    + destruct (IndexJs_app_calls c w send (with_body i b)) as [H | H];
        [now left | right; exists b; tauto].
    + destruct (Part000_app_calls c w send (with_body i b)) as [H | H];
        [now left | right; exists b; tauto].
    + destruct (Part001_app_calls c w send (with_body i b)) as [H | H];
        [now left | right; exists b; tauto].
  - destruct (serve_body_rejected c w send i err Hi) as (E1 & E2 & E0).
    rewrite E1, E2, E0. repeat split; now left.
Qed.

(** X2.  A POST /send-email with the configured secret and a validated body,
    on which the provider call succeeds, is answered HTTP 200 with
    success=true and the message "Email sent successfully" after exactly
    one provider call, provided the line the handler logs before it answers
    can be written: subject, to and emailType are put into a string there.
    The Brevo variants echo the provider's data in the response (part_000
    adds the timestamp); part_001 sends no data field.  When one of the
    three cannot be converted to a string (an object with a toString entry,
    or an array holding one), the conversion throws after the provider has
    been called with success, and the answer is the catch block's 500 with
    the error "Cannot convert object to primitive value". *)
Theorem X2_successful_relay :
  forall (c : constants) (w : world) (send : provider) (req : request) (data : value),
    routed_to_send_email req ->
    key_valid c req ->
    validated (body req) ->
    let thrown := VStr "Cannot convert object to primitive value" in
    (send (IndexJs.sendEmailRequest (body req)) = Resolved data ->
     let o := IndexJs.serve c w send (accepted req) in
     (loggable (body req) ->
      sent_200 (IndexJs.sendEmailRequest (body req)) o
      /\ prop (body_of (sent o)) "data" = data)
     /\ (~ loggable (body req) ->
         failed_500 thrown o
         /\ provider_calls o = [IndexJs.sendEmailRequest (body req)]))
    /\ (send (Part000.sendEmailRequest (body req)) = Resolved data ->
        origin_let_through c w req ->
        let o := Part000.serve c w send (accepted req) in
        (loggable (body req) ->
         sent_200 (Part000.sendEmailRequest (body req)) o
         /\ prop (body_of (sent o)) "data" = data
         /\ prop (body_of (sent o)) "timestamp" = VStr (now w))
        /\ (~ loggable (body req) ->
            failed_500 thrown o
            /\ provider_calls o = [Part000.sendEmailRequest (body req)]))
    /\ (send (Part001.msg (body req)) = Resolved data ->
        let o := Part001.serve c w send (accepted req) in
        (loggable (body req) ->
         sent_200 (Part001.msg (body req)) o
         /\ prop (body_of (sent o)) "data" = VUndefined)
        /\ (~ loggable (body req) ->
            failed_500 thrown o
            /\ provider_calls o = [Part001.msg (body req)])).
Proof.
  intros c w send req data Hpost Hkey Hval thrown.
  destruct (key_valid_checks c req Hkey) as [Ha Hd].
  assert (Hpass : absent (header req "x-api-key")
                  || differs (header req "x-api-key") (API_SECRET_KEY c) = false)
    by (now rewrite Ha, Hd).
  split; [| split].
  - intros Hs o. subst o.
    rewrite IndexJs_serve_accepted, IndexJs_app_routed, IndexJs_route_passes,
      IndexJs_send_email_validated by assumption.
    cbv zeta. rewrite Hs. split.
    + intros Hl. apply IndexJs_log_line_written in Hl. destruct Hl as [line Hl].
      rewrite Hl. repeat split; reflexivity.
    + intros Hl. apply IndexJs_log_line_throws in Hl. rewrite Hl.
      repeat split; reflexivity.
  - intros Hs Ho o. subst o.
    rewrite Part000_serve_accepted, Part000_app_routed, Part000_route_passes,
      Part000_send_email_validated by assumption.
    cbv zeta. rewrite Hs. split.
    + intros Hl. apply Part000_log_line_written in Hl. destruct Hl as [line Hl].
      rewrite Hl. repeat split; reflexivity.
    + intros Hl. apply Part000_log_line_throws in Hl. rewrite Hl.
      repeat split; reflexivity.
  - intros Hs o. subst o.
    rewrite Part001_serve_accepted, Part001_app_routed, Part001_route_passes,
      Part001_send_email_validated by assumption.
    cbv zeta. rewrite Hs. split.
    + intros Hl. apply Part001_log_line_written in Hl. destruct Hl as [line Hl].
      rewrite Hl. repeat split; reflexivity.
    + intros Hl. apply Part001_log_line_throws in Hl. rewrite Hl.
      repeat split; reflexivity.
Qed.

(** X2 at a single-recipient request with the default secret of index.js,
    and at the same request with a subject that cannot be converted. *)
Lemma X2_witness :
  let key := [("x-api-key", "your-secret-key-here")] in
  let c := IndexJs.load env_default in
  sent_200 (IndexJs.sendEmailRequest body_single)
    (IndexJs.serve c production provider_ok (accepted (post key body_single)))
  /\ prop (body_of (sent (IndexJs.serve c production provider_ok
                            (accepted (post key body_single))))) "data"
     = VObj [("messageId", VStr "m-1")]
  /\ failed_500 (VStr "Cannot convert object to primitive value")
       (IndexJs.serve c production provider_ok (accepted (post key body_unloggable))).
Proof.
  intros key c.
  destruct (X2_successful_relay c production provider_ok (post key body_single)
              (VObj [("messageId", VStr "m-1")])) as (H1 & _).
  { split; reflexivity. }
  { split; [reflexivity | discriminate]. }
  { repeat split. }
  destruct (H1 eq_refl) as (Hok & _).
  destruct Hok as (Hsent & Hdata). { repeat split. }
  split; [exact Hsent |]. split; [exact Hdata |].
  destruct (X2_successful_relay c production provider_ok (post key body_unloggable)
              (VObj [("messageId", VStr "m-1")])) as (H2 & _).
  { split; reflexivity. }
  { split; [reflexivity | discriminate]. }
  { repeat split. }
  destruct (H2 eq_refl) as (_ & Hthrow).
  apply Hthrow. intros (Hs & _). discriminate Hs.
Defined.

(** X4.  An OPTIONS request whose body the parser takes (a pre-flight has
    none) is answered before the key check and the routes, whatever its
    path and key, and never reaches the provider.  The hand-written variants
    send 200 "OK" with the CORS headers of their middleware; part_000 sends
    204 without a body, with Content-Length 0 and the lists of allowed
    methods and headers, when the cors origin function lets the request
    through, and the 500 of its error handler otherwise.  Body parsing comes
    before the CORS handling in every variant: an OPTIONS request with a
    body the parser rejects gets the answer to the parser's error, without
    CORS headers. *)
Theorem X4_preflight_short_circuit :
  forall (c : constants) (w : world) (send : provider),
    (forall req : request,
        method req = "OPTIONS" ->
        let o := Part000.serve c w send (accepted req) in
        IndexJs.serve c w send (accepted req)
        = reply (sendStatus_200 (custom_cors_headers c req))
        /\ Part001.serve c w send (accepted req)
           = reply (sendStatus_200 (custom_cors_headers c req))
        /\ (origin_let_through c w req ->
            statusCode (sent o) = 204%Z
            /\ resBody (sent o) = NoBody
            /\ getHeader (sent o) "Content-Length" = Some "0"
            /\ getHeader (sent o) ACAM = Some "GET,POST,OPTIONS"
            /\ getHeader (sent o) ACAH = Some "Content-Type,Authorization,X-API-Key"
            /\ provider_calls o = [])
        /\ (~ origin_let_through c w req ->
            statusCode (sent o) = 500%Z /\ provider_calls o = []))
    /\ (forall (i : incoming) (err : value),
           in_method i = "OPTIONS" ->
           in_body i = BodyRejected err ->
           IndexJs.serve c w send i = reply (finalhandler_error w err fresh)
           /\ Part001.serve c w send i = reply (finalhandler_error w err fresh)
           /\ Part000.serve c w send i
              = reply (Part000.error_handler w err
                         (setHeader fresh "X-Server-Timestamp" (now w)))).
Proof.
  intros c w send. split.
  - intros req Hm o. subst o.
    rewrite IndexJs_serve_accepted, Part000_serve_accepted, Part001_serve_accepted.
    assert (Hopt : (method req =? "OPTIONS") = true) by (now apply String.eqb_eq).
    split; [| split; [| split]].
    + now rewrite IndexJs_app_unfold, Hopt.
    + now rewrite Part001_app_unfold, Hopt.
    + intros Hpass. rewrite Part000_app_let_through_preflight by assumption.
      unfold preflight_response, configureOrigin, getHeader. simpl.
      destruct (header req "origin") as [o |]; simpl;
        [destruct (o =? "") |]; repeat split; reflexivity.
    + intros Hnot.
      destruct (Part000_app_not_let_through c w send req Hnot) as (H1 & _ & H2).
      now split.
  - intros i err _ Hi. now apply serve_body_rejected.
Qed.

(** X4 at a pre-flight for /send-email that carries no key. *)
Lemma X4_witness :
  let preflight :=
    options_request "/send-email" [("origin", "https://kenyaonabudgetsafaris.co.uk")] in
  IndexJs.serve (IndexJs.load env_default) production provider_ok (accepted preflight)
  = reply (sendStatus_200 (custom_cors_headers (IndexJs.load env_default) preflight))
  /\ statusCode (sent (Part000.serve (Part000.load env_default) production provider_ok
                         (accepted preflight)))
     = 204%Z.
Proof.
  intros preflight.
  destruct (proj1 (X4_preflight_short_circuit (IndexJs.load env_default) production
                     provider_ok) preflight eq_refl)
    as (H1 & _).
  destruct (proj1 (X4_preflight_short_circuit (Part000.load env_default) production
                     provider_ok) preflight eq_refl)
    as (_ & _ & H0 & _).
  split; [exact H1 | exact (proj1 (H0 eq_refl))].
Defined.





(** X7.  Outside development mode no response of part_000 carries a stack
    trace: the stack field of the body is undefined whatever the request
    and whatever the provider does, also when the provider call fails with
    an error that has a stack. *)
Theorem X7_no_stack_outside_development :
  forall (c : constants) (w : world) (send : provider) (req : request),
    development w = false ->
    prop (body_of (sent (Part000.app c w send req))) "stack" = VUndefined.
Proof.
  intros c w send req Hdev.
  destruct (Part000_app_trichotomy c w send req)
    as [(_ & _ & m & H) | [(_ & _ & H) | (_ & _ & H)]]; rewrite H.
  - unfold Part000.error_handler. rewrite Hdev. reflexivity.
  - reflexivity.
  - now apply Part000_router_no_stack.
Qed.

(** X7 at a request on which the provider call fails, in production. *)
Lemma X7_witness :
  statusCode (sent (Part000.app (Part000.load env_default) production provider_failing
                      (post [("x-api-key", "thiswillbesecretkey45")] body_single)))
  = 500%Z
  /\ prop (body_of (sent (Part000.app (Part000.load env_default) production
                            provider_failing
                            (post [("x-api-key", "thiswillbesecretkey45")] body_single))))
       "stack" = VUndefined.
Proof.
  split; [reflexivity |].
  exact (X7_no_stack_outside_development (Part000.load env_default) production
           provider_failing
           (post [("x-api-key", "thiswillbesecretkey45")] body_single) eq_refl).
Defined.

(** X8.  When the cors origin function of part_000 does not let a request
    through, whatever its method (a pre-flight too), the process is not in
    development mode, and the error handler answers 500 "Internal Server
    Error" with the fixed message "An unexpected error occurred": neither
    the rejected origin nor a stack trace is in the response, no CORS
    header is set, and no provider call is made. *)
Theorem X8_origin_rejection_is_generic :
  forall (c : constants) (w : world) (send : provider) (req : request),
    ~ origin_let_through c w req ->
    development w = false
    /\ statusCode (sent (Part000.app c w send req)) = 500%Z
    /\ prop (body_of (sent (Part000.app c w send req))) "error"
       = VStr "Internal Server Error"
    /\ prop (body_of (sent (Part000.app c w send req))) "message"
       = VStr "An unexpected error occurred"
    /\ prop (body_of (sent (Part000.app c w send req))) "stack" = VUndefined
    /\ cors_withheld (sent (Part000.app c w send req))
    /\ provider_calls (Part000.app c w send req) = [].
Proof.
  intros c w send req Hnot.
  destruct (Part000_app_trichotomy c w send req)
    as [(_ & Hdev & m & H) | [(Hp & _) | (Hp & _)]]; try contradiction.
  rewrite H. unfold Part000.error_handler. rewrite Hdev.
  repeat split; reflexivity.
Qed.

(** X8 at a pre-flight from an origin outside the allow-list. *)
Lemma X8_witness :
  prop (body_of (sent (Part000.app (Part000.load env_default) production provider_ok
                         (options_request "/send-email"
                            [("origin", "https://evil.example")]))))
    "message"
  = VStr "An unexpected error occurred".
Proof.
  refine (proj1 (proj2 (proj2 (proj2
            (X8_origin_rejection_is_generic (Part000.load env_default) production
               provider_ok
               (options_request "/send-email" [("origin", "https://evil.example")])
               _))))).
  discriminate.
Defined.

(** X9.  Every response of part_000 carries the X-Server-Timestamp header
    the first middleware sets: the 204 of a pre-flight, the 500 of the
    error handler and the responses of all routes alike. *)
Theorem X9_server_timestamp_on_every_response :
  forall (c : constants) (w : world) (send : provider) (req : request),
    getHeader (sent (Part000.app c w send req)) "X-Server-Timestamp" = Some (now w).
Proof.
  intros c w send req.
  destruct (Part000_app_trichotomy c w send req)
    as [(_ & _ & m & H) | [(_ & _ & H) | (_ & _ & H)]]; rewrite H.
  - reflexivity.
  - apply preflight_response_timestamp.
  - unfold getHeader. rewrite Part000_router_headers.
    apply package_cors_headers_timestamp.
Qed.







(** X13.  The duplicate filter of part_000 leaves a list without duplicates
    as it is, and applying it twice changes nothing more.  The allow-list
    therefore always starts with the five built-in origins in their fixed
    order, followed by the supplied origins that are not built in, each
    once, in the order of their first appearance. *)
Theorem X13_allow_list_order :
  forall (env : process_env) (l : list string),
    (NoDup l -> Part000.remove_duplicates l = l)
    /\ Part000.remove_duplicates (Part000.remove_duplicates l)
       = Part000.remove_duplicates l
    /\ ALLOWED_ORIGINS (Part000.load env)
       = (Part000.base_origins
          ++ filter (fun x => negb (includes Part000.base_origins x))
               (Part000.remove_duplicates (Part000.allowedOriginsFromEnv env)))%list.
Proof.
  intros env l. split; [apply remove_duplicates_id |]. split.
  - apply remove_duplicates_id, remove_duplicates_NoDup.
  - unfold Part000.load. cbn [ALLOWED_ORIGINS].
    rewrite remove_duplicates_app. reflexivity.
Qed.



(** X15.  An empty array of recipients is not rejected: with a non-empty
    subject and html the body passes validation, and the handler calls the
    provider with no recipient at all in part_000 and part_001, and with
    the one recipient object holding the empty array in index.js. *)
Theorem X15_empty_recipient_list_is_sent :
  forall (w : world) (send : provider) (req : request) (res : response),
    prop (body req) "to" = VArr [] ->
    truthy (prop (body req) "subject") = true ->
    truthy (prop (body req) "html") = true ->
    validated (body req)
    /\ (provider_calls (Part000.send_email w send req res)
        = [Part000.sendEmailRequest (body req)]
        /\ prop (Part000.sendEmailRequest (body req)) "to" = VArr [])
    /\ (provider_calls (Part001.send_email send req res) = [Part001.msg (body req)]
        /\ prop (Part001.msg (body req)) "to" = VArr [])
    /\ (provider_calls (IndexJs.send_email send req res)
        = [IndexJs.sendEmailRequest (body req)]
        /\ prop (IndexJs.sendEmailRequest (body req)) "to" = VArr [address (VArr [])]).
Proof.
  intros w send req res Hto Hs Hh.
  assert (Hval : validated (body req)).
  { unfold validated. rewrite Hto. now repeat split. }
  split; [assumption |]. split; [| split]; split.
  - now apply Part000_calls.
  - unfold Part000.sendEmailRequest. simpl. now rewrite Hto.
  - now apply Part001_calls.
  - unfold Part001.msg. simpl. now rewrite Hto.
  - now apply IndexJs_calls.
  - unfold IndexJs.sendEmailRequest. simpl. now rewrite Hto.
Qed.

(** X15 at a body whose to is the empty array. *)
Lemma X15_witness :
  provider_calls (Part000.send_email production provider_ok
                    (post [] body_empty_recipients) fresh)
  = [Part000.sendEmailRequest body_empty_recipients]
  /\ prop (Part000.sendEmailRequest body_empty_recipients) "to" = VArr [].
Proof.
  exact (proj1 (proj2 (X15_empty_recipient_list_is_sent production provider_ok
                         (post [] body_empty_recipients) fresh
                         eq_refl eq_refl eq_refl))).
Defined.



(** X17.  A provider failure whose response has nothing to serialize: when
    the response has no text, index.js answers with the error string "Brevo
    error: undefined"; when it has no body, part_001 answers "SendGrid error
    (code): undefined"; part_000, when the response has neither text nor
    body (or empty ones), answers with "Brevo API error: " followed by the
    quoted text "Unknown API error". *)
Theorem X17_failure_without_details :
  forall (w : world) (send : provider) (req : request) (res : response) (error : value),
    validated (body req) ->
    truthy (prop error "response") = true ->
    (prop (prop error "response") "text" = VUndefined ->
     send (IndexJs.sendEmailRequest (body req)) = Rejected error ->
     failed_500 (VStr "Brevo error: undefined") (IndexJs.send_email send req res))
    /\ (prop (prop error "response") "body" = VUndefined ->
        send (Part001.msg (body req)) = Rejected error ->
        failed_500 (VStr ("SendGrid error (" ++ ToString (prop error "code")
                          ++ "): undefined"))
          (Part001.send_email send req res))
    /\ (truthy (prop (prop error "response") "text") = false ->
        truthy (prop (prop error "response") "body") = false ->
        send (Part000.sendEmailRequest (body req)) = Rejected error ->
        failed_500 (VStr ("Brevo API error: " ++ json_quote "Unknown API error"))
          (Part000.send_email w send req res)).
Proof.
  intros w send req res error Hval Hr. split; [| split].
  - intros Ht Hs. rewrite IndexJs_send_email_validated by assumption.
    simpl. rewrite Hs. unfold IndexJs.errorMessage. rewrite Hr, Ht.
    repeat split; reflexivity.
  - intros Hb Hs. rewrite Part001_send_email_validated by assumption.
    simpl. rewrite Hs. unfold Part001.errorMessage. rewrite Hr, Hb.
    repeat split; reflexivity.
  - intros Ht Hb Hs. rewrite Part000_send_email_validated by assumption.
    simpl. rewrite Hs. unfold Part000.errorMessage, or_else. rewrite Hr, Ht, Hb.
    repeat split; reflexivity.
Qed.

(** X17 at a failure whose response is an empty object. *)
Lemma X17_witness :
  failed_500 (VStr "Brevo error: undefined")
    (IndexJs.send_email
       (fun _ => Rejected (VObj [("message", VStr "failed"); ("response", VObj [])]))
       (post [] body_single) fresh).
Proof.
  refine (proj1 (X17_failure_without_details production
                   (fun _ => Rejected (VObj [("message", VStr "failed");
                                             ("response", VObj [])]))
                   (post [] body_single) fresh
                   (VObj [("message", VStr "failed"); ("response", VObj [])]) _ eq_refl)
            eq_refl eq_refl).
  repeat split.
Defined.

(** X18.  Reading ALLOWED_ORIGINS in part_000 gives back what was written:
    for origins that are not empty, hold no comma and are left as they are
    by trim (no white space at their ends, the Unicode white space
    included), written one after the other with a comma, or a comma and a
    space, between them, the supplied origins are exactly those, in
    order.  When they are distinct and none is built in, the allow-list is
    the built-in origins followed by them. *)
Theorem X18_allowed_origins_read_back :
  forall (env : process_env) (sp : string) (l : list string),
    sp = "" \/ sp = " " ->
    l <> [] ->
    Forall plain_entry l ->
    env_ALLOWED_ORIGINS env = Some (join (String comma sp) l) ->
    Part000.allowedOriginsFromEnv env = l
    /\ (NoDup l ->
        (forall x, In x l -> ~ In x Part000.base_origins) ->
        ALLOWED_ORIGINS (Part000.load env) = (Part000.base_origins ++ l)%list).
Proof.
  intros env sp l Hsp Hne Hall Henv.
  assert (Hread : Part000.allowedOriginsFromEnv env = l).
  { unfold Part000.allowedOriginsFromEnv. rewrite Henv.
    assert (Hor : env_or (Some (join (String comma sp) l)) "" = join (String comma sp) l).
    { unfold env_or. destruct (String.eqb_spec (join (String comma sp) l) "") as [E | _];
        [now rewrite E | reflexivity]. }
    rewrite Hor.
    pose proof (read_back_entries sp l "" Hsp (or_introl eq_refl) Hne Hall) as Hback.
    cbn [append] in Hback. rewrite Hback.
    now apply filter_nonempty_plain. }
  split; [assumption |].
  intros Hnd Hnew. unfold Part000.load. cbn [ALLOWED_ORIGINS].
  rewrite Hread, remove_duplicates_app, (remove_duplicates_id l Hnd).
  f_equal. apply filter_all. intros x Hx.
  apply negb_true_iff, includes_false. now apply Hnew.
Qed.

(** X18 at two origins written with a comma and a space between them. *)
Lemma X18_witness :
  Part000.allowedOriginsFromEnv
    {| env_ALLOWED_ORIGINS := Some "https://a.example, https://b.example";
       env_API_SECRET_KEY := None |}
  = ["https://a.example"; "https://b.example"].
Proof.
  refine (proj1 (X18_allowed_origins_read_back
                   {| env_ALLOWED_ORIGINS := Some "https://a.example, https://b.example";
                      env_API_SECRET_KEY := None |}
                   " " ["https://a.example"; "https://b.example"]
                   (or_intror eq_refl) _ _ eq_refl)).
  - discriminate.
  - repeat constructor; discriminate.
Defined.



